(** * pretty_j1939: the J1939 decoding core of [parse.py]

    A shallow embedding of [pretty_j1939/parse.py]: the identifier
    decomposer, the signal-value extractor working on the bit layout of the
    signal database, the whole-message describer and the BAM transport
    reassembler, followed by the properties of these functions.

    Conventions of the embedding.
    - Python integers are unbounded, so they are [Z] with no wrap-around;
      [&], [>>] and [<<] are [Z.land], [Z.shiftr] and [Z.shiftl].
    - A [bytes] object and a list of byte-sized integers are [list byte].
    - The numbers stored in the JSON database (offset, resolution,
      operational range) are exact rationals [Q]; a value of a signal is a
      [Q] as well.  The module [Py] has [get_spn_value] with the numbers of
      Python instead, [int] and binary64 [float], for what depends on the
      rounding of the arithmetic.
    - A Python exception is a value of [exn] carried by [result]; [try] /
      [except] is a match on the result.
    - A [dict] is a [gmap]; the database keys, which the source formats with
      ["{}".format] from integers, are the integers themselves. *)

From Stdlib Require Import ZArith QArith List Lia.
From Stdlib.Strings Require Import Byte Ascii String.
From Stdlib.Floats Require Import SpecFloat.
From stdpp Require Import gmap strings list fin_maps sorting pretty.

Local Open Scope Z_scope.

(** ** Exceptions *)

Inductive exn : Type :=
  | KeyError
  | IndexError
  | ValueError
  | OverflowError.

Inductive result (A : Type) : Type :=
  | Ok (a : A)
  | Raise (e : exn).

Arguments Ok {A} a.
Arguments Raise {A} e.

Definition rbind {A B : Type} (r : result A) (k : A -> result B) : result B :=
  match r with
  | Ok a => k a
  | Raise e => Raise e
  end.

Notation "'let*' x ':=' r 'in' k" := (rbind r (fun x => k))
  (at level 10, x name, r at level 100, k at level 200).

(** ** Identifier decomposer *)

Definition DA_MASK : Z := 0x0000FF00.
Definition SA_MASK : Z := 0x000000FF.
Definition PF_MASK : Z := 0x00FF0000.

Definition parse_j1939_id (can_id : Z) : Z * Z * Z :=
  let sa := Z.land SA_MASK can_id in
  let pf := Z.shiftr (Z.land PF_MASK can_id) 16 in
  let da := Z.shiftr (Z.land DA_MASK can_id) 8 in
  if 240 <=? pf
  then (pf * 256 + da, 0xFF, sa)
  else (pf * 256, da, sa).

Definition is_connection_management_message (message_id : Z) : bool :=
  Z.land message_id PF_MASK =? 0x00EC0000.

Definition is_data_transfer_message (message_id : Z) : bool :=
  Z.land message_id PF_MASK =? 0x00EB0000.

Definition is_transport_message (message_id : Z) : bool :=
  is_data_transfer_message message_id
  || is_connection_management_message message_id.

(** [message_bytes[k]] for a non-negative constant [k]. *)
Definition byte_at (message_bytes : list byte) (k : nat) : result Z :=
  match message_bytes !! k with
  | Some b => Ok (Z.of_N (Byte.to_N b))
  | None => Raise IndexError
  end.

Definition is_bam_cts_message (message_bytes : list byte) : result bool :=
  let* b0 := byte_at message_bytes 0 in
  Ok (b0 =? 32).

(** ** Bit strings

    The source manipulates payloads through the [bitstring] package.  A
    [BitString] is a [list bool], most significant bit of the first byte
    first.  The operations below follow that package: slicing with Python's
    slice rules, [byteswap()] without a format, [all(True)] and [uint]. *)

Definition bits_of_byte (b : byte) : list bool :=
  let n := Z.of_N (Byte.to_N b) in
  (fun i : Z => Z.testbit n i) <$> [7; 6; 5; 4; 3; 2; 1; 0].

(** [bitstring.BitString(message_data)] *)
Definition BitString (message_data : list byte) : list bool :=
  message_data ≫= bits_of_byte.

(** [s[start:stop]]: a negative bound counts from the end, both bounds are
    clamped to the length, and an empty range gives the empty sequence. *)
Definition py_slice {A : Type} (s : list A) (start stop : Z) : list A :=
  let len := Z.of_nat (length s) in
  let start := if start <? 0 then start + len else start in
  let stop := if stop <? 0 then stop + len else stop in
  let start := Z.max start 0 in
  let stop := Z.min stop len in
  if start <? stop
  then take (Z.to_nat (stop - start)) (drop (Z.to_nat start) s)
  else [].

(** The first [n] bytes of [bits] in reverse byte order. *)
Fixpoint reversebytes (n : nat) (bits : list bool) : list bool :=
  match n with
  | O => []
  | S n' => reversebytes n' (drop 8 bits) ++ take 8 bits
  end.

(** [s.byteswap()]: the whole bytes of [s] are reversed bytewise; the bits
    after the last whole byte stay where they are. *)
Definition byteswap (bits : list bool) : list bool :=
  let n := (length bits / 8)%nat in
  reversebytes n bits ++ drop (8 * n) bits.

(** [s.all(True)] *)
Definition all_true (bits : list bool) : bool := forallb id bits.

Definition uint_of_bits (bits : list bool) : Z :=
  fold_left (fun acc (b : bool) => 2 * acc + Z.b2z b) bits 0.

(** [s.uint]: the package refuses to read an integer from an empty bit
    string, with an error that is a [ValueError]. *)
Definition uint (bits : list bool) : result Z :=
  match bits with
  | [] => Raise ValueError
  | _ => Ok (uint_of_bits bits)
  end.

(** ** Signal database *)

Record spn_entry : Type := {
  spn_Name : string;
  spn_Acronym : string;
  spn_Units : string;
  spn_StartBit : Z;
  spn_EndBit : Z;
  spn_SPNLength : Z;
  spn_Offset : Q;
  spn_Resolution : Q;
  spn_OperationalLow : Q;
  spn_OperationalHigh : Q
}.

Record pgn_entry : Type := {
  pgn_Label : string;
  pgn_Name : string;
  pgn_SPNs : list Z
}.

Record j1939db : Type := {
  J1939PGNdb : gmap Z pgn_entry;
  J1939SPNdb : gmap Z spn_entry;
  J1939BitDecodings : gmap Z (gmap Z string);
  J1939SATabledb : gmap Z string
}.

(** [d[k]] on a dictionary. *)
Definition getitem {K V : Type} `{Countable K} (d : gmap K V) (k : K) : result V :=
  match d !! k with
  | Some v => Ok v
  | None => Raise KeyError
  end.

(** [j1939db["J1939SPNdb"]["{}".format(spn)][field]] *)
Definition spn_field {A : Type} (db : j1939db) (spn : Z) (field : spn_entry -> A)
  : result A :=
  let* e := getitem (J1939SPNdb db) spn in
  Ok (field e).

Definition get_spn_list (db : j1939db) (pgn : Z) : list Z :=
  match getitem (J1939PGNdb db) pgn with
  | Ok e => merge_sort Z.le (pgn_SPNs e)
  | Raise _ => []
  end.

Definition get_spn_name (db : j1939db) (spn : Z) : string :=
  match spn_field db spn spn_Name with
  | Ok name => name
  | Raise _ => "Unknown"
  end.

Definition get_pgn_acronym (db : j1939db) (pgn : Z) : string :=
  match getitem (J1939PGNdb db) pgn with
  | Ok e => if String.eqb (pgn_Label e) "" then "Unknown" else pgn_Label e
  | Raise _ => "Unknown"
  end.

Definition get_pgn_name (db : j1939db) (pgn : Z) : string :=
  match getitem (J1939PGNdb db) pgn with
  | Ok e => if String.eqb (pgn_Name e) "" then get_pgn_acronym db pgn else pgn_Name e
  | Raise _ => get_pgn_acronym db pgn
  end.

Definition get_spn_acronym (db : j1939db) (spn : Z) : string :=
  match spn_field db spn spn_Acronym with
  | Ok acronym => acronym
  | Raise _ => "Unknown"
  end.

(** The address table is keyed by the decimal text of the address, which the
    source obtains by formatting and stripping; here the key is the address. *)
Definition get_address_name (db : j1939db) (address : Z) : string :=
  match getitem (J1939SATabledb db) address with
  | Ok name => name
  | Raise _ => "Unknown"
  end.

Fixpoint pad_left (k : nat) (s : string) : string :=
  match k with
  | O => s
  | S k' => String " " (pad_left k' s)
  end.

(** ["{:3d}".format(n)]: the decimal text of [n], right-aligned in a field
    of three characters. *)
Definition format_3d (n : Z) : string :=
  let s := pretty n in
  pad_left (3 - String.length s) s.

Definition get_formatted_address_and_name (db : j1939db) (address : Z)
  : string * string :=
  if address =? 255 then ("(255)", "All")
  else ("(" +:+ format_3d address +:+ ")", get_address_name db address).

Definition describe_message_id (db : j1939db) (message_id : Z) : gmap string string :=
  let '(pgn, da, sa) := parse_j1939_id message_id in
  let pgn_acronym := get_pgn_acronym db pgn in
  let '(da_formatted_address, da_address_name) :=
    get_formatted_address_and_name db da in
  let '(sa_formatted_address, sa_address_name) :=
    get_formatted_address_and_name db sa in
  let description := <["PGN" := pgn_acronym +:+ "(" +:+ pretty pgn +:+ ")"]> ∅ in
  let description := <["DA" := da_address_name +:+ da_formatted_address]> description in
  <["SA" := sa_address_name +:+ sa_formatted_address]> description.


(** ** Signal value extractor *)

Definition get_spn_bytes (db : j1939db) (message_data : list byte) (spn : Z)
  : result (list bool) :=
  let* spn_start := spn_field db spn spn_StartBit in
  let* spn_end := spn_field db spn spn_EndBit in
  let cut_data := py_slice (BitString message_data) spn_start (spn_end + 1) in
  Ok (byteswap cut_data).

Definition lower_char (c : ascii) : ascii :=
  let n := N_of_ascii c in
  if ((65 <=? n) && (n <=? 90))%N then ascii_of_N (n + 32) else c.

(** [s.lower()] *)
Fixpoint lower (s : string) : string :=
  match s with
  | EmptyString => EmptyString
  | String c s' => String (lower_char c) (lower s')
  end.

Definition is_spn_bitencoded (spn_units : string) : bool :=
  let u := lower spn_units in
  String.eqb u "bit" || String.eqb u "binary".

Definition is_spn_numerical_values (db : j1939db) (spn : Z) : result bool :=
  let* spn_units := spn_field db spn spn_Units in
  let norm_units := lower spn_units in
  Ok (negb (String.eqb norm_units "manufacturer determined"
            || String.eqb norm_units "byte"
            || String.eqb norm_units ""
            || String.eqb norm_units "request dependent"
            || String.eqb norm_units "ascii")).

Definition Qlt_bool (x y : Q) : bool :=
  match (x ?= y)%Q with
  | Lt => true
  | _ => false
  end.

(** [get_spn_value] over exact numbers: the function of the source on a
    database whose numbers are integers.  With the [int] and [float] numbers
    of Python it is [Py.get_spn_value] below. *)
Definition get_spn_value (db : j1939db) (message_data : list byte) (spn : Z)
    (validate : bool) : result (option Q) :=
  let* units := spn_field db spn spn_Units in
  let* offset := spn_field db spn spn_Offset in
  let* scale := spn_field db spn spn_Resolution in
  let scale := if Qle_bool scale 0 then 1%Q else scale in
  let* cut_data := get_spn_bytes db message_data spn in
  if all_true cut_data then Ok None
  else if is_spn_bitencoded units then
    let* raw := uint cut_data in
    Ok (Some (inject_Z raw))
  else
    let* raw := uint cut_data in
    let value := (inject_Z raw * scale + offset)%Q in
    if validate then
      let* operational_min := spn_field db spn spn_OperationalLow in
      let* operational_max := spn_field db spn spn_OperationalHigh in
      if Qlt_bool value operational_min || Qlt_bool operational_max value
      then Raise ValueError
      else Ok (Some value)
    else Ok (Some value).

(** ** Whole-message describer *)

(** String conversions of Python and of the [bitstring] package that the
    describer applies to its values.  They are an interface of the
    embedding: the describer is defined for any implementation of it. *)
Class Rendering : Type := {
  (** ["%s" % bits] for a [BitString] *)
  str_bits : list bool -> string;
  (** ["%s" % bits.tobytes()] *)
  str_tobytes : list bool -> string;
  (** ["%s" % value] for a number *)
  str_value : Q -> string;
  (** ["%d" % value] for a number *)
  fmt_d : Q -> string;
  (** [s.strip()] *)
  strip : string -> string
}.

(** [int(value)]: truncation towards zero. *)
Definition int_of_Q (q : Q) : Z := Z.quot (Qnum q) (Z.pos (Qden q)).

Section Describer.
Context `{Rendering}.

(** The body of the [try] statement for one SPN; [description] is the
    dictionary built so far and the result is the dictionary after the
    body ([continue] leaves it as it is). *)
Definition describe_spn_try (db : j1939db) (message_data : list byte)
    (include_na : bool) (spn : Z) (spn_name spn_units : string)
    (description : gmap string string) : result (gmap string string) :=
  let* numerical := is_spn_numerical_values db spn in
  if numerical then
    let* spn_value := get_spn_value db message_data spn true in
    match spn_value with
    | None =>
        if include_na then Ok (<[spn_name := "N/A"]> description)
        else Ok description
    | Some spn_value =>
        if is_spn_bitencoded spn_units then
          let lookup :=
            let* enum_descriptions := getitem (J1939BitDecodings db) spn in
            let* d := getitem enum_descriptions (int_of_Q spn_value) in
            Ok (strip d) in
          match lookup with
          | Ok spn_value_description =>
              Ok (<[spn_name := fmt_d spn_value +:+ " (" +:+ spn_value_description +:+ ")"]>
                    description)
          | Raise KeyError =>
              Ok (<[spn_name := fmt_d spn_value +:+ " (Unknown)"]> description)
          | Raise e => Raise e
          end
        else
          Ok (<[spn_name := str_value spn_value +:+ " (" +:+ spn_units +:+ ")"]>
                description)
    end
  else if String.eqb (lower spn_units) "request dependent" then
    let* bits := get_spn_bytes db message_data spn in
    Ok (<[spn_name := str_bits bits +:+ " (" +:+ spn_units +:+ ")"]> description)
  else if String.eqb (lower spn_units) "ascii" then
    let* bits := get_spn_bytes db message_data spn in
    Ok (<[spn_name := str_tobytes bits]> description)
  else
    let* bits := get_spn_bytes db message_data spn in
    Ok (<[spn_name := str_bits bits]> description).

(** One iteration of the loop over the SPN list. *)
Definition describe_spn (db : j1939db) (message_data : list byte)
    (include_na : bool) (description : gmap string string) (spn : Z)
  : result (gmap string string) :=
  let spn_name := get_spn_name db spn in
  let* spn_units := spn_field db spn spn_Units in
  match describe_spn_try db message_data include_na spn spn_name spn_units
          description with
  | Raise ValueError =>
      let* bits := get_spn_bytes db message_data spn in
      Ok (<[spn_name := str_bits bits +:+ " (" +:+ "Out of range" +:+ ")"]>
            description)
  | r => r
  end.



End Describer.

(** ** Transport reassembler *)

(** The four dictionaries that [get_bam_processor] creates and that the
    closure [process_for_bams] shares between its calls. *)
Record bam_state : Type := {
  new_pgn : gmap Z Z;
  new_data : gmap Z (list byte);
  new_packets : gmap Z Z;
  new_length : gmap Z Z
}.

Definition bam_init : bam_state :=
  {| new_pgn := ∅; new_data := ∅; new_packets := ∅; new_length := ∅ |}.

(** [l[idx] = x] on a Python list: a negative index counts from the end, an
    index outside the list raises [IndexError]. *)
Definition list_setitem {A : Type} (l : list A) (idx : Z) (x : A) : result (list A) :=
  let len := Z.of_nat (length l) in
  let idx := if idx <? 0 then idx + len else idx in
  if (0 <=? idx) && (idx <? len)
  then Ok (<[Z.to_nat idx := x]> l)
  else Raise IndexError.

Section Reassembler.
(** The type of timestamps; the reassembler only passes them on. *)
Context {T : Type}.

(** What a call makes visible besides the dictionaries: a line printed by
    the exception handler of the copy loop, and a call of the completion
    callback [process_bam_found]. *)
Inductive event : Type :=
  | Printed (e : exn)
  | BamFound (data_bytes : list byte) (sa pgn : Z) (timestamp : T).

(** A computation on the dictionaries: it returns the dictionaries as it
    leaves them, also when it raises, the events in order, and its result. *)
Definition bam_m (A : Type) : Type :=
  bam_state -> bam_state * list event * result A.

Definition ret {A : Type} (a : A) : bam_m A := fun st => (st, [], Ok a).

Definition bind {A B : Type} (m : bam_m A) (k : A -> bam_m B) : bam_m B :=
  fun st =>
    match m st with
    | (st1, ev1, Ok a) =>
        let '(st2, ev2, r) := k a st1 in (st2, ev1 ++ ev2, r)
    | (st1, ev1, Raise e) => (st1, ev1, Raise e)
    end.

Definition lift {A : Type} (r : result A) : bam_m A := fun st => (st, [], r).

Definition get : bam_m bam_state := fun st => (st, [], Ok st).

Definition modify (f : bam_state -> bam_state) : bam_m unit :=
  fun st => (f st, [], Ok tt).

Definition emit (e : event) : bam_m unit := fun st => (st, [e], Ok tt).

(** [try: m except Exception as e: handler e] *)
Definition try_except {A : Type} (m : bam_m A) (handler : exn -> bam_m A) : bam_m A :=
  fun st =>
    match m st with
    | (st1, ev1, Raise e) =>
        let '(st2, ev2, r) := handler e st1 in (st2, ev1 ++ ev2, r)
    | r => r
    end.

Fixpoint for_each {A : Type} (l : list A) (body : A -> bam_m unit) : bam_m unit :=
  match l with
  | [] => ret tt
  | x :: rest => bind (body x) (fun _ => for_each rest body)
  end.

End Reassembler.

Arguments event T : clear implicits.
Arguments bam_m T A : clear implicits.

Notation "'let!' x ':=' m 'in' k" := (bind m (fun x => k))
  (at level 10, x name, m at level 100, k at level 200).

Section Process.
Context {T : Type}.

Definition set_new_pgn (sa v : Z) (st : bam_state) : bam_state :=
  {| new_pgn := <[sa := v]> (new_pgn st); new_data := new_data st;
     new_packets := new_packets st; new_length := new_length st |}.

Definition set_new_length (sa v : Z) (st : bam_state) : bam_state :=
  {| new_pgn := new_pgn st; new_data := new_data st;
     new_packets := new_packets st; new_length := <[sa := v]> (new_length st) |}.

Definition set_new_packets (sa v : Z) (st : bam_state) : bam_state :=
  {| new_pgn := new_pgn st; new_data := new_data st;
     new_packets := <[sa := v]> (new_packets st); new_length := new_length st |}.

Definition set_new_data (sa : Z) (v : list byte) (st : bam_state) : bam_state :=
  {| new_pgn := new_pgn st; new_data := <[sa := v]> (new_data st);
     new_packets := new_packets st; new_length := new_length st |}.

(** The body of the copy loop for the pair [(b, i)]. *)
Definition store_byte (message_bytes : list byte) (sa : Z) (p : byte * Z)
  : bam_m T unit :=
  let '(b, i) := p in
  try_except
    (let! st := get in
     let! buf := lift (getitem (new_data st) sa) in
     let! seq := lift (byte_at message_bytes 0) in
     let! buf' := lift (list_setitem buf (i + 7 * (seq - 1)) b) in
     modify (set_new_data sa buf'))
    (fun e => emit (Printed e)).

Definition process_for_bams (message_bytes : list byte) (message_id sa : Z)
    (timestamp : T) : bam_m T unit :=
  if is_connection_management_message message_id then
    let! bam := lift (is_bam_cts_message message_bytes) in
    if bam : bool then
      let! b7 := lift (byte_at message_bytes 7) in
      let! b6 := lift (byte_at message_bytes 6) in
      let! b5 := lift (byte_at message_bytes 5) in
      let! _ := modify (set_new_pgn sa (Z.shiftl b7 16 + Z.shiftl b6 8 + b5)) in
      let! b2 := lift (byte_at message_bytes 2) in
      let! b1 := lift (byte_at message_bytes 1) in
      let! _ := modify (set_new_length sa (Z.shiftl b2 8 + b1)) in
      let! b3 := lift (byte_at message_bytes 3) in
      let! _ := modify (set_new_packets sa b3) in
      let! st := get in
      let! packets := lift (getitem (new_packets st) sa) in
      modify (set_new_data sa (replicate (Z.to_nat (7 * packets)) xff))
    else ret tt
  else if is_data_transfer_message message_id then
    let! st := get in
    if bool_decide (sa ∈ dom (new_data st)) then
      let! _ := for_each (zip (drop 1 message_bytes) [0; 1; 2; 3; 4; 5; 6])
                         (store_byte message_bytes sa) in
      let! seq := lift (byte_at message_bytes 0) in
      let! st := get in
      let! packets := lift (getitem (new_packets st) sa) in
      if seq =? packets then
        let! buf := lift (getitem (new_data st) sa) in
        let! len := lift (getitem (new_length st) sa) in
        let data_bytes := py_slice buf 0 len in
        let! pgn := lift (getitem (new_pgn st) sa) in
        emit (BamFound data_bytes sa pgn timestamp)
      else ret tt
    else ret tt
  else ret tt.

(** The dictionaries, the events and the result after feeding a list of
    frames [(message_bytes, message_id, sa, timestamp)] to the closure, one
    call per frame as long as no call raises. *)
Fixpoint process_frames (frames : list (list byte * Z * Z * T)) : bam_m T unit :=
  match frames with
  | [] => ret tt
  | (message_bytes, message_id, sa, timestamp) :: rest =>
      let! _ := process_for_bams message_bytes message_id sa timestamp in
      process_frames rest
  end.

End Process.

(** The session of [sa]: its entries in the four dictionaries. *)
Definition session_at (st : bam_state) (sa pgn len packets : Z) (buf : list byte)
  : Prop :=
  new_pgn st !! sa = Some pgn
  /\ new_length st !! sa = Some len
  /\ new_packets st !! sa = Some packets
  /\ new_data st !! sa = Some buf.

(** What the calls keep true of the dictionaries: an address with a buffer
    has its other three entries, the buffer holds seven bytes per announced
    packet, and the announced length is not negative. *)
Definition bam_inv (st : bam_state) : Prop :=
  forall (sa : Z) (buf : list byte),
    new_data st !! sa = Some buf ->
    exists pgn len packets,
      session_at st sa pgn len packets buf
      /\ Z.of_nat (length buf) = 7 * packets
      /\ 0 <= len.

(** The integer value of a byte. *)
Definition byte_value (b : byte) : Z := Z.of_N (Byte.to_N b).

(** The value of a byte sequence read least significant byte first. *)
Fixpoint little_endian (message_data : list byte) : Z :=
  match message_data with
  | [] => 0
  | b :: rest => byte_value b + 256 * little_endian rest
  end.

(** The completion calls among the events of a run. *)
Definition completions {T : Type} (events : list (event T))
  : list (list byte * Z * Z * T) :=
  omap (fun e => match e with
                 | BamFound data_bytes sa pgn timestamp =>
                     Some (data_bytes, sa, pgn, timestamp)
                 | Printed _ => None
                 end) events.

(** The frames of one source address as [process_for_bams] receives them. *)
Definition data_frames {T : Type} (message_id sa : Z) (frames : list (list byte * T))
  : list (list byte * Z * Z * T) :=
  (fun f => (fst f, message_id, sa, snd f)) <$> frames.

(** ** The signal value with Python's numbers

    [json.load] gives the numbers of the database as Python [int] or
    [float] values, and [get_spn_value] computes with them as Python does:
    an [int] is exact, a [float] is an IEEE 754 binary64 number, an [int]
    that meets a [float] in a product or a sum is first converted to a
    [float], and comparisons are exact also between an [int] and a [float].
    The module [Py] is [get_spn_value] with these numbers; binary64 is
    [SpecFloat] at precision 53 and maximal exponent 1024.  The definitions
    above, over exact rationals, agree with it on a database whose numbers
    are integers. *)

Module Py.

Inductive number : Type :=
  | Int (z : Z)
  | Float (f : spec_float).

Definition prec : Z := 53.
Definition emax : Z := 1024.

(** [float(z)]: the nearest binary64 number, ties to even; an [int] beyond
    the range of the finite numbers raises [OverflowError]. *)
Definition float_of_int (z : Z) : result spec_float :=
  match binary_normalize prec emax z 0 false with
  | S754_infinity _ => Raise OverflowError
  | f => Ok f
  end.

Definition to_float (x : number) : result spec_float :=
  match x with
  | Int z => float_of_int z
  | Float f => Ok f
  end.

(** [x * y] *)
Definition mul (x y : number) : result number :=
  match x, y with
  | Int a, Int b => Ok (Int (a * b))
  | _, _ =>
      let* f := to_float x in
      let* g := to_float y in
      Ok (Float (SFmul prec emax f g))
  end.

(** [x + y] *)
Definition add (x y : number) : result number :=
  match x, y with
  | Int a, Int b => Ok (Int (a + b))
  | _, _ =>
      let* f := to_float x in
      let* g := to_float y in
      Ok (Float (SFadd prec emax f g))
  end.

(** A number as a point of the extended real line: not a number, an
    infinity, or the finite value [m * 2 ^ e]. *)
Inductive extended : Type :=
  | NotANumber
  | Infinity (negative : bool)
  | Finite (m e : Z).

Definition classify (x : number) : extended :=
  match x with
  | Int z => Finite z 0
  | Float (S754_zero _) => Finite 0 0
  | Float (S754_finite s m e) => Finite (cond_Zopp s (Z.pos m)) e
  | Float (S754_infinity s) => Infinity s
  | Float S754_nan => NotANumber
  end.

(** The exact order of two numbers; there is none when one of them is not a
    number. *)
Definition compare (x y : number) : option comparison :=
  match classify x, classify y with
  | NotANumber, _ | _, NotANumber => None
  | Infinity s1, Infinity s2 =>
      Some (match s1, s2 with
            | true, false => Lt
            | false, true => Gt
            | _, _ => Eq
            end)
  | Infinity s, Finite _ _ => Some (if s then Lt else Gt)
  | Finite _ _, Infinity s => Some (if s then Gt else Lt)
  | Finite m1 e1, Finite m2 e2 =>
      let e := Z.min e1 e2 in
      Some (Z.compare (m1 * 2 ^ (e1 - e)) (m2 * 2 ^ (e2 - e)))
  end.

(** [x < y] *)
Definition lt (x y : number) : bool :=
  match compare x y with
  | Some Lt => true
  | _ => false
  end.

(** [x <= y] *)
Definition le (x y : number) : bool :=
  match compare x y with
  | Some (Lt | Eq) => true
  | _ => false
  end.

Record spn_entry : Type := {
  spn_Name : string;
  spn_Acronym : string;
  spn_Units : string;
  spn_StartBit : Z;
  spn_EndBit : Z;
  spn_SPNLength : Z;
  spn_Offset : number;
  spn_Resolution : number;
  spn_OperationalLow : number;
  spn_OperationalHigh : number
}.

(** The part of the database that [get_spn_value] reads. *)
Record j1939db : Type := {
  J1939SPNdb : gmap Z spn_entry
}.

Definition spn_field {A : Type} (db : j1939db) (spn : Z) (field : spn_entry -> A)
  : result A :=
  let* e := getitem (J1939SPNdb db) spn in
  Ok (field e).

Definition get_spn_bytes (db : j1939db) (message_data : list byte) (spn : Z)
  : result (list bool) :=
  let* spn_start := spn_field db spn spn_StartBit in
  let* spn_end := spn_field db spn spn_EndBit in
  let cut_data := py_slice (BitString message_data) spn_start (spn_end + 1) in
  Ok (byteswap cut_data).

Definition get_spn_value (db : j1939db) (message_data : list byte) (spn : Z)
    (validate : bool) : result (option number) :=
  let* units := spn_field db spn spn_Units in
  let* offset := spn_field db spn spn_Offset in
  let* scale := spn_field db spn spn_Resolution in
  let scale := if le scale (Int 0) then Int 1 else scale in
  let* cut_data := get_spn_bytes db message_data spn in
  if all_true cut_data then Ok None
  else if is_spn_bitencoded units then
    let* raw := uint cut_data in
    Ok (Some (Int raw))
  else
    let* raw := uint cut_data in
    let* scaled := mul (Int raw) scale in
    let* value := add scaled offset in
    if validate then
      let* operational_min := spn_field db spn spn_OperationalLow in
      let* operational_max := spn_field db spn spn_OperationalHigh in
      if lt value operational_min || lt operational_max value
      then Raise ValueError
      else Ok (Some value)
    else Ok (Some value).

(** The binary64 number nearest to the decimal fraction [num / den], as
    [json.load] reads a decimal literal. *)
Definition decimal (num den : Z) : spec_float :=
  SFdiv prec emax (binary_normalize prec emax num 0 false)
    (binary_normalize prec emax den 0 false).

(** A percentage with the resolution 0.1 and the range 0 to 0.3. *)
Definition fraction : spn_entry :=
  {| spn_Name := "Fraction"; spn_Acronym := "Frac"; spn_Units := "%";
     spn_StartBit := 0; spn_EndBit := 7; spn_SPNLength := 8;
     spn_Offset := Int 0; spn_Resolution := Float (decimal 1 10);
     spn_OperationalLow := Int 0; spn_OperationalHigh := Float (decimal 3 10) |}.

(** A 64-bit counter with the resolution 1.0 and the range 0 to [2 ^ 63]. *)
Definition counter : spn_entry :=
  {| spn_Name := "Counter"; spn_Acronym := "Cnt"; spn_Units := "count";
     spn_StartBit := 0; spn_EndBit := 63; spn_SPNLength := 64;
     spn_Offset := Int 0; spn_Resolution := Float (decimal 1 1);
     spn_OperationalLow := Int 0; spn_OperationalHigh := Int (2 ^ 63) |}.

(** A four-bit state field whose stored range is 0 to 3. *)
Definition state : spn_entry :=
  {| spn_Name := "Engine Torque Mode"; spn_Acronym := "EngTorqueMode";
     spn_Units := "Bit"; spn_StartBit := 4; spn_EndBit := 7;
     spn_SPNLength := 4; spn_Offset := Int 0; spn_Resolution := Int 1;
     spn_OperationalLow := Int 0; spn_OperationalHigh := Int 3 |}.

Definition example_db : j1939db :=
  {| J1939SPNdb := {[ 1 := fraction; 2 := counter; 899 := state ]} |}.

Definition with_resolution (e : spn_entry) (r : number) : spn_entry :=
  {| spn_Name := spn_Name e; spn_Acronym := spn_Acronym e;
     spn_Units := spn_Units e; spn_StartBit := spn_StartBit e;
     spn_EndBit := spn_EndBit e; spn_SPNLength := spn_SPNLength e;
     spn_Offset := spn_Offset e; spn_Resolution := r;
     spn_OperationalLow := spn_OperationalLow e;
     spn_OperationalHigh := spn_OperationalHigh e |}.

Definition with_spn (db : j1939db) (spn : Z) (e : spn_entry) : j1939db :=
  {| J1939SPNdb := <[spn := e]> (J1939SPNdb db) |}.

End Py.

(** ** Database updates and a small database

    [with_resolution] and [with_spn] build the databases that differ in one
    stored resolution; [example_db] is a database with one PGN and three
    SPNs, used to evaluate the functions on concrete frames. *)

Definition with_resolution (e : spn_entry) (r : Q) : spn_entry :=
  {| spn_Name := spn_Name e; spn_Acronym := spn_Acronym e;
     spn_Units := spn_Units e; spn_StartBit := spn_StartBit e;
     spn_EndBit := spn_EndBit e; spn_SPNLength := spn_SPNLength e;
     spn_Offset := spn_Offset e; spn_Resolution := r;
     spn_OperationalLow := spn_OperationalLow e;
     spn_OperationalHigh := spn_OperationalHigh e |}.

Definition with_spn (db : j1939db) (spn : Z) (e : spn_entry) : j1939db :=
  {| J1939PGNdb := J1939PGNdb db; J1939SPNdb := <[spn := e]> (J1939SPNdb db);
     J1939BitDecodings := J1939BitDecodings db;
     J1939SATabledb := J1939SATabledb db |}.

(** A database in which the PGN has an entry with the given label, no name
    and no SPN. *)
Definition with_pgn_label (db : j1939db) (pgn : Z) (label : string) : j1939db :=
  {| J1939PGNdb :=
       <[pgn := {| pgn_Label := label; pgn_Name := ""; pgn_SPNs := [] |}]>
         (J1939PGNdb db);
     J1939SPNdb := J1939SPNdb db;
     J1939BitDecodings := J1939BitDecodings db;
     J1939SATabledb := J1939SATabledb db |}.

Module Example.

(** Engine speed: 16 bits from bit 24, 0.125 rpm per bit. *)
Definition engine_speed : spn_entry :=
  {| spn_Name := "Engine Speed"; spn_Acronym := "EngSpeed";
     spn_Units := "rpm"; spn_StartBit := 24; spn_EndBit := 39;
     spn_SPNLength := 16; spn_Offset := 0; spn_Resolution := 1 # 8;
     spn_OperationalLow := 0; spn_OperationalHigh := 8000 |}.

(** A four-bit state field whose stored range is 0 to 3. *)
Definition torque_mode : spn_entry :=
  {| spn_Name := "Engine Torque Mode"; spn_Acronym := "EngTorqueMode";
     spn_Units := "Bit"; spn_StartBit := 4; spn_EndBit := 7;
     spn_SPNLength := 4; spn_Offset := 0; spn_Resolution := 1;
     spn_OperationalLow := 0; spn_OperationalHigh := 3 |}.

(** Driver's demand torque: one byte, offset -125. *)
Definition demand_torque : spn_entry :=
  {| spn_Name := "Driver's Demand Engine - Percent Torque";
     spn_Acronym := "DriversDemandEngPercentTorque";
     spn_Units := "%"; spn_StartBit := 8; spn_EndBit := 15;
     spn_SPNLength := 8; spn_Offset := -125; spn_Resolution := 0;
     spn_OperationalLow := -125; spn_OperationalHigh := 125 |}.

Definition eec1 : pgn_entry :=
  {| pgn_Label := "EEC1"; pgn_Name := "Electronic Engine Controller 1";
     pgn_SPNs := [899; 190; 512] |}.

Definition db : j1939db :=
  {| J1939PGNdb := {[ 61444 := eec1 ]};
     J1939SPNdb := {[ 190 := engine_speed; 899 := torque_mode;
                      512 := demand_torque ]};
     J1939BitDecodings := {[ 899 := {[ 0 := "Low idle governor" ]} ]};
     J1939SATabledb := {[ 0 := "Engine #1" ]} |}.

(** A rendering that keeps no detail of the values. *)
Definition plain : Rendering :=
  {| str_bits := fun _ => "<bits>"; str_tobytes := fun _ => "<bytes>";
     str_value := fun _ => "<value>"; fmt_d := fun _ => "<int>";
     strip := fun s => s |}.

(** A BAM announcing 11 bytes in 2 packets for PGN 65259, and data
    frames with sequence numbers 1, 2, 0 and 9. *)
Definition bam : list byte := [x20; x0b; x00; x02; xff; xeb; xfe; x00].
Definition dt1 : list byte := [x01; x11; x12; x13; x14; x15; x16; x17].
Definition dt2 : list byte := [x02; x21; x22; x23; x24; x25; x26; x27].
Definition dt0 : list byte := [x00; x31; x32; x33; x34; x35; x36; x37].
Definition dt9 : list byte := [x09; x41; x42; x43; x44; x45; x46; x47].

Definition cm_id : Z := 0x1CECFF00.
Definition dt_id : Z := 0x1CEBFF00.

(** The dictionaries after the BAM alone, from the empty dictionaries. *)
Definition after_bam : bam_state :=
  fst (fst (process_for_bams (T := Z) bam cm_id 0 1 bam_init)).

(** The dictionaries after the BAM and the first data frame. *)
Definition after_dt1 : bam_state :=
  fst (fst (process_for_bams (T := Z) dt1 dt_id 0 2 after_bam)).

End Example.

(** * Properties *)

(** ** Identifier decomposer *)

Lemma land_byte_mask (x : Z) (k : Z) :
  0 <= k -> Z.shiftr (Z.land (Z.shiftl 255 k) x) k = (x / 2 ^ k) mod 256.
Proof.
  intros Hk.
  rewrite Z.shiftr_land, Z.shiftr_shiftl_l, Z.sub_diag, Z.shiftl_0_r by lia.
  rewrite Z.land_comm.
  change 255 with (Z.ones 8).
  rewrite Z.land_ones by lia.
  rewrite Z.shiftr_div_pow2 by lia.
  reflexivity.
Qed.

(** C3: [parse_j1939_id] reads the source address from the low byte, the PDU
    format from bits 16 to 23 and the raw destination from bits 8 to 15; for
    a PDU format of 240 or more the PGN is [pf * 256 + da_raw] and the
    destination is forced to 255, below 240 the PGN is [pf * 256] and the
    destination is the middle byte.  The function is total. *)
Theorem parse_j1939_id_spec (can_id : Z) :
  let sa := Z.land can_id 0xFF in
  let pf := Z.shiftr (Z.land can_id 0xFF0000) 16 in
  let da_raw := Z.shiftr (Z.land can_id 0xFF00) 8 in
  (240 <= pf -> parse_j1939_id can_id = (pf * 256 + da_raw, 255, sa)) /\
  (pf < 240 -> parse_j1939_id can_id = (pf * 256, da_raw, sa)) /\
  sa = can_id mod 256 /\
  pf = (can_id / 65536) mod 256 /\
  da_raw = (can_id / 256) mod 256.
Proof.
  intros sa pf da_raw.
  assert (Hsa : Z.land SA_MASK can_id = sa) by apply Z.land_comm.
  assert (Hpf : Z.shiftr (Z.land PF_MASK can_id) 16 = pf).
  { unfold pf, PF_MASK. now rewrite (Z.land_comm can_id). }
  assert (Hda : Z.shiftr (Z.land DA_MASK can_id) 8 = da_raw).
  { unfold da_raw, DA_MASK. now rewrite (Z.land_comm can_id). }
  repeat split.
  - intros Hge. unfold parse_j1939_id. rewrite Hsa, Hpf, Hda.
    destruct (Z.leb_spec 240 pf); [reflexivity | lia].
  - intros Hlt. unfold parse_j1939_id. rewrite Hsa, Hpf, Hda.
    destruct (Z.leb_spec 240 pf); [lia | reflexivity].
  - unfold sa. change 255 with (Z.ones 8). now rewrite Z.land_ones by lia.
  - rewrite <- Hpf. apply (land_byte_mask can_id 16). lia.
  - rewrite <- Hda. apply (land_byte_mask can_id 8). lia.
Qed.

Lemma parse_j1939_id_spec_witness :
  parse_j1939_id 0x18EF1234 = (61184, 18, 52) /\
  parse_j1939_id 0x18FEF100 = (65265, 255, 0).
Proof.
  split.
  - apply (proj1 (proj2 (parse_j1939_id_spec 0x18EF1234))). vm_compute. reflexivity.
  - apply (proj1 (parse_j1939_id_spec 0x18FEF100)). vm_compute. discriminate.
Defined.

Lemma data_transfer_not_connection_management (message_id : Z) :
  is_data_transfer_message message_id = true ->
  is_connection_management_message message_id = false.
Proof.
  unfold is_data_transfer_message, is_connection_management_message.
  intros Hdt. apply Z.eqb_eq in Hdt. rewrite Hdt. reflexivity.
Qed.

(** ** Signal value extractor *)

Lemma spn_field_found {A : Type} (db : j1939db) (spn : Z) (e : spn_entry)
    (field : spn_entry -> A) :
  J1939SPNdb db !! spn = Some e -> spn_field db spn field = Ok (field e).
Proof. intros Hfound. unfold spn_field, getitem. now rewrite Hfound. Qed.

Lemma spn_field_missing {A : Type} (db : j1939db) (spn : Z)
    (field : spn_entry -> A) :
  J1939SPNdb db !! spn = None -> spn_field db spn field = Raise KeyError.
Proof. intros Hnone. unfold spn_field, getitem. now rewrite Hnone. Qed.

Lemma all_true_app (xs ys : list bool) :
  all_true (xs ++ ys) = all_true xs && all_true ys.
Proof. apply forallb_app. Qed.

Lemma all_true_reversebytes (n : nat) (bits : list bool) :
  all_true (reversebytes n bits) = all_true (take (8 * n) bits).
Proof.
  revert bits. induction n as [|n IH]; intros bits.
  - reflexivity.
  - cbn [reversebytes]. rewrite all_true_app, IH.
    replace (8 * S n)%nat with (8 + 8 * n)%nat by lia.
    rewrite <- (take_take_drop bits 8 (8 * n)), all_true_app.
    apply andb_comm.
Qed.

(** Swapping the bytes moves the bits around and changes none of them. *)
Lemma all_true_byteswap (bits : list bool) :
  all_true (byteswap bits) = all_true bits.
Proof.
  unfold byteswap.
  rewrite all_true_app, all_true_reversebytes, <- all_true_app.
  now rewrite take_drop.
Qed.

Lemma length_reversebytes (n : nat) (bits : list bool) :
  (8 * n <= length bits)%nat -> length (reversebytes n bits) = (8 * n)%nat.
Proof.
  revert bits. induction n as [|n IH]; intros bits Hlen.
  - reflexivity.
  - cbn [reversebytes]. rewrite length_app, IH, length_take.
    + lia.
    + rewrite length_drop. lia.
Qed.

Lemma length_byteswap (bits : list bool) :
  length (byteswap bits) = length bits.
Proof.
  unfold byteswap.
  pose proof (Nat.div_mod_eq (length bits) 8) as Hdiv.
  rewrite length_app, length_reversebytes, length_drop; lia.
Qed.

Lemma uint_not_all_true (bits : list bool) :
  all_true bits = false -> uint bits = Ok (uint_of_bits bits).
Proof. destruct bits; [discriminate | reflexivity]. Qed.

(** The value of an SPN that the database knows, case by case. *)
Lemma get_spn_value_found (db : j1939db) (message_data : list byte) (spn : Z)
    (e : spn_entry) (validate : bool) :
  J1939SPNdb db !! spn = Some e ->
  get_spn_value db message_data spn validate =
    let cut_data :=
      byteswap (py_slice (BitString message_data) (spn_StartBit e) (spn_EndBit e + 1)) in
    let scale := if Qle_bool (spn_Resolution e) 0 then 1%Q else spn_Resolution e in
    let value := (inject_Z (uint_of_bits cut_data) * scale + spn_Offset e)%Q in
    if all_true cut_data then Ok None
    else if is_spn_bitencoded (spn_Units e) then Ok (Some (inject_Z (uint_of_bits cut_data)))
    else if validate && (Qlt_bool value (spn_OperationalLow e)
                         || Qlt_bool (spn_OperationalHigh e) value)
         then Raise ValueError
         else Ok (Some value).
Proof.
  intros Hfound. unfold get_spn_value, get_spn_bytes.
  rewrite !(spn_field_found db spn e) by exact Hfound. cbn [rbind].
  destruct (all_true (byteswap _)) eqn:Hall; [reflexivity |].
  rewrite (uint_not_all_true _ Hall). cbn [rbind].
  destruct (is_spn_bitencoded (spn_Units e)); [reflexivity |].
  destruct validate; reflexivity.
Qed.

(** C2: a signal is reported as not available exactly when every bit of the
    field cut out by [StartBit, EndBit] is set; this holds for every entry of
    the database, whatever its resolution, offset, units and range, and for
    both values of [validate]. *)
Theorem get_spn_value_all_ones (db : j1939db) (message_data : list byte)
    (spn : Z) (e : spn_entry) (validate : bool) :
  J1939SPNdb db !! spn = Some e ->
  all_true (py_slice (BitString message_data) (spn_StartBit e) (spn_EndBit e + 1)) = true
  <-> get_spn_value db message_data spn validate = Ok None.
Proof.
  intros Hfound.
  rewrite (get_spn_value_found db message_data spn e validate Hfound).
  cbv zeta. rewrite all_true_byteswap.
  destruct (all_true (py_slice _ _ _)); [tauto |].
  split; [discriminate |].
  destruct (is_spn_bitencoded _); [discriminate |].
  destruct (_ && _); discriminate.
Qed.

Lemma get_spn_value_all_ones_witness :
  get_spn_value Example.db [x00; x10; x7d; xff; xff; x00; x00; x00] 190 true = Ok None.
Proof.
  apply (proj1 (get_spn_value_all_ones Example.db _ 190 Example.engine_speed true
                  eq_refl)).
  reflexivity.
Defined.

Lemma py_spn_field_found {A : Type} (db : Py.j1939db) (spn : Z) (e : Py.spn_entry)
    (field : Py.spn_entry -> A) :
  Py.J1939SPNdb db !! spn = Some e -> Py.spn_field db spn field = Ok (field e).
Proof. intros Hfound. unfold Py.spn_field, getitem. now rewrite Hfound. Qed.

(** The value of an SPN that the database knows, with Python's numbers. *)
Lemma py_get_spn_value_found (db : Py.j1939db) (message_data : list byte) (spn : Z)
    (e : Py.spn_entry) (validate : bool) :
  Py.J1939SPNdb db !! spn = Some e ->
  Py.get_spn_value db message_data spn validate =
    let cut_data :=
      byteswap (py_slice (BitString message_data) (Py.spn_StartBit e)
                  (Py.spn_EndBit e + 1)) in
    let scale :=
      if Py.le (Py.spn_Resolution e) (Py.Int 0) then Py.Int 1
      else Py.spn_Resolution e in
    if all_true cut_data then Ok None
    else if is_spn_bitencoded (Py.spn_Units e)
         then Ok (Some (Py.Int (uint_of_bits cut_data)))
    else
      let* scaled := Py.mul (Py.Int (uint_of_bits cut_data)) scale in
      let* value := Py.add scaled (Py.spn_Offset e) in
      if validate && (Py.lt value (Py.spn_OperationalLow e)
                      || Py.lt (Py.spn_OperationalHigh e) value)
      then Raise ValueError
      else Ok (Some value).
Proof.
  intros Hfound. unfold Py.get_spn_value, Py.get_spn_bytes.
  rewrite !(py_spn_field_found db spn e) by exact Hfound. cbn [rbind].
  destruct (all_true (byteswap _)) eqn:Hall; [reflexivity |].
  rewrite (uint_not_all_true _ Hall). cbn [rbind].
  destruct (is_spn_bitencoded (Py.spn_Units e)); [reflexivity |].
  destruct (Py.mul _ _) as [scaled|]; cbn [rbind]; [| reflexivity].
  destruct (Py.add scaled _) as [value|]; cbn [rbind]; [| reflexivity].
  destruct validate; reflexivity.
Qed.

Lemma py_to_float_raise (x : Py.number) (err : exn) :
  Py.to_float x = Raise err -> err = OverflowError.
Proof.
  destruct x as [z | f]; cbn [Py.to_float]; [| discriminate].
  unfold Py.float_of_int.
  destruct (binary_normalize _ _ _ _ _); congruence.
Qed.

(** A product or a sum of two numbers raises nothing but [OverflowError]. *)
Lemma py_arithmetic_raise (x y : Py.number) (err : exn) :
  Py.mul x y = Raise err \/ Py.add x y = Raise err -> err = OverflowError.
Proof.
  assert (Hboth : forall op : spec_float -> spec_float -> spec_float,
             (let* f := Py.to_float x in
              let* g := Py.to_float y in Ok (Py.Float (op f g))) = Raise err ->
             err = OverflowError).
  { intros op.
    destruct (Py.to_float x) as [f|e1] eqn:Hx; cbn [rbind].
    - destruct (Py.to_float y) as [g|e2] eqn:Hy; cbn [rbind]; [discriminate |].
      intros [= <-]. exact (py_to_float_raise y e2 Hy).
    - intros [= <-]. exact (py_to_float_raise x e1 Hx). }
  intros [Hmul | Hadd].
  - destruct x, y; try discriminate; exact (Hboth _ Hmul).
  - destruct x, y; try discriminate; exact (Hboth _ Hadd).
Qed.

(** C4, as amended: for an SPN whose units are not bit-encoded and whose
    field is not all ones, [get_spn_value] with [validate] set computes
    [raw * scale + offset] with Python's numbers, where [scale] is the stored
    resolution, or 1 when that is not positive.  When the computation gives a
    value, the call raises [ValueError] exactly when the value is below
    [OperationalLow] or above [OperationalHigh], and returns the value
    otherwise.  When the computation meets an [int] too large for a
    [float], the call raises [OverflowError]. *)
Theorem get_spn_value_validate (db : Py.j1939db) (message_data : list byte)
    (spn : Z) (e : Py.spn_entry) :
  Py.J1939SPNdb db !! spn = Some e ->
  is_spn_bitencoded (Py.spn_Units e) = false ->
  let field :=
    py_slice (BitString message_data) (Py.spn_StartBit e) (Py.spn_EndBit e + 1) in
  all_true field = false ->
  let scale :=
    if Py.le (Py.spn_Resolution e) (Py.Int 0) then Py.Int 1
    else Py.spn_Resolution e in
  match (let* scaled := Py.mul (Py.Int (uint_of_bits (byteswap field))) scale in
         Py.add scaled (Py.spn_Offset e)) with
  | Ok value =>
      let outside :=
        Py.lt value (Py.spn_OperationalLow e)
        || Py.lt (Py.spn_OperationalHigh e) value in
      (Py.get_spn_value db message_data spn true = Raise ValueError
       <-> outside = true)
      /\ (outside = false ->
          Py.get_spn_value db message_data spn true = Ok (Some value))
  | Raise err =>
      Py.get_spn_value db message_data spn true = Raise err
      /\ err = OverflowError
  end.
Proof.
  intros Hfound Hunits field Hfield scale.
  rewrite (py_get_spn_value_found db message_data spn e true Hfound).
  cbv zeta. fold field. rewrite all_true_byteswap, Hfield, Hunits. fold scale.
  destruct (Py.mul (Py.Int (uint_of_bits (byteswap field))) scale)
    as [scaled | err] eqn:Hmul; cbn [rbind].
  - destruct (Py.add scaled (Py.spn_Offset e)) as [value | err] eqn:Hadd;
      cbn [rbind andb].
    + destruct (Py.lt value _ || Py.lt _ value).
      * split; [tauto | discriminate].
      * split; [| reflexivity]. split; discriminate.
    + split; [reflexivity |].
      apply (py_arithmetic_raise scaled (Py.spn_Offset e)). now right.
  - split; [reflexivity |].
    apply (py_arithmetic_raise (Py.Int (uint_of_bits (byteswap field))) scale).
    now left.
Qed.

Lemma get_spn_value_validate_witness :
  Py.get_spn_value Py.example_db [x03] 1 true = Raise ValueError
  /\ Py.get_spn_value Py.example_db [x02] 1 true
     = Ok (Some (Py.Float (S754_finite false 7205759403792794 (-55))))
  /\ Py.get_spn_value Py.example_db [x01; x00; x00; x00; x00; x00; x00; x80] 2 true
     = Ok (Some (Py.Float (S754_finite false 4503599627370496 11))).
Proof.
  split; [| split].
  - pose proof (get_spn_value_validate Py.example_db [x03] 1 Py.fraction
                  eq_refl eq_refl eq_refl) as Hcall.
    cbv zeta in Hcall.
    remember (rbind _ _) as computed eqn:Hcomputed in Hcall.
    vm_compute in Hcomputed. subst computed. cbv beta iota in Hcall.
    apply (proj2 (proj1 Hcall)). reflexivity.
  - pose proof (get_spn_value_validate Py.example_db [x02] 1 Py.fraction
                  eq_refl eq_refl eq_refl) as Hcall.
    cbv zeta in Hcall.
    remember (rbind _ _) as computed eqn:Hcomputed in Hcall.
    vm_compute in Hcomputed. subst computed. cbv beta iota in Hcall.
    apply (proj2 Hcall). reflexivity.
  - pose proof (get_spn_value_validate Py.example_db
                  [x01; x00; x00; x00; x00; x00; x00; x80] 2 Py.counter
                  eq_refl eq_refl eq_refl) as Hcall.
    cbv zeta in Hcall.
    remember (rbind _ _) as computed eqn:Hcomputed in Hcall.
    vm_compute in Hcomputed. subst computed. cbv beta iota in Hcall.
    apply (proj2 Hcall). reflexivity.
Defined.

(** C4 as it is written fails on a bit-encoded field: the value 5 of the
    four-bit field lies above the stored range 0 to 3, and the call with
    [validate] set returns 5 instead of raising. *)
Lemma get_spn_value_validate_counterexample :
  let e := Py.state in
  let message_data := [x05; x10; x7d; x00; x20; x00; x00; x00] in
  let field :=
    py_slice (BitString message_data) (Py.spn_StartBit e) (Py.spn_EndBit e + 1) in
  let scale :=
    if Py.le (Py.spn_Resolution e) (Py.Int 0) then Py.Int 1
    else Py.spn_Resolution e in
  Py.J1939SPNdb Py.example_db !! 899 = Some e
  /\ all_true field = false
  /\ (let* scaled := Py.mul (Py.Int (uint_of_bits (byteswap field))) scale in
      Py.add scaled (Py.spn_Offset e)) = Ok (Py.Int 5)
  /\ Py.lt (Py.spn_OperationalHigh e) (Py.Int 5) = true
  /\ Py.get_spn_value Py.example_db message_data 899 true <> Raise ValueError
  /\ Py.get_spn_value Py.example_db message_data 899 true = Ok (Some (Py.Int 5)).
Proof.
  cbv zeta. repeat split; try reflexivity.
  vm_compute. discriminate.
Qed.



Lemma is_spn_bitencoded_iff (spn_units : string) :
  is_spn_bitencoded spn_units = true
  <-> lower spn_units = "bit" \/ lower spn_units = "binary".
Proof.
  unfold is_spn_bitencoded. rewrite orb_true_iff, !String.eqb_eq. reflexivity.
Qed.

(** C10: for an SPN whose units are ["bit"] or ["binary"] in any letter
    case, [get_spn_value] never raises [ValueError], with or without
    [validate]; when the field is not all ones it returns the unsigned
    integer of the byte-swapped field, with no scale and no offset. *)
Theorem get_spn_value_bitencoded (db : j1939db) (message_data : list byte)
    (spn : Z) (e : spn_entry) (validate : bool) :
  J1939SPNdb db !! spn = Some e ->
  lower (spn_Units e) = "bit" \/ lower (spn_Units e) = "binary" ->
  let field := py_slice (BitString message_data) (spn_StartBit e) (spn_EndBit e + 1) in
  get_spn_value db message_data spn validate <> Raise ValueError /\
  (all_true field = false ->
   get_spn_value db message_data spn validate
   = Ok (Some (inject_Z (uint_of_bits (byteswap field))))).
Proof.
  intros Hfound Hunits field.
  apply is_spn_bitencoded_iff in Hunits.
  rewrite (get_spn_value_found db message_data spn e validate Hfound).
  cbv zeta. fold field. rewrite all_true_byteswap, Hunits.
  destruct (all_true field); split; try discriminate; reflexivity.
Qed.

Lemma get_spn_value_bitencoded_witness :
  get_spn_value Example.db [x05; x10; x7d; x00; x20; x00; x00; x00] 899 true
  = Ok (Some (inject_Z 5)).
Proof.
  apply (proj2 (get_spn_value_bitencoded Example.db
                  [x05; x10; x7d; x00; x20; x00; x00; x00] 899
                  Example.torque_mode true eq_refl (or_introl eq_refl))).
  reflexivity.
Defined.

(** ** Whole-message describer *)

Section DescriberProperties.
Context `{Rendering}.

Lemma get_spn_bytes_found (db : j1939db) (message_data : list byte) (spn : Z)
    (e : spn_entry) :
  J1939SPNdb db !! spn = Some e ->
  get_spn_bytes db message_data spn
  = Ok (byteswap (py_slice (BitString message_data) (spn_StartBit e)
                    (spn_EndBit e + 1))).
Proof.
  intros Hfound. unfold get_spn_bytes.
  now rewrite !(spn_field_found db spn e) by exact Hfound.
Qed.

(** With the SPN in the database, a value, an absence or [ValueError] are
    the only outcomes of [get_spn_value]. *)
Lemma get_spn_value_outcome (db : j1939db) (message_data : list byte)
    (spn : Z) (e : spn_entry) (validate : bool) :
  J1939SPNdb db !! spn = Some e ->
  (exists v, get_spn_value db message_data spn validate = Ok v)
  \/ get_spn_value db message_data spn validate = Raise ValueError.
Proof.
  intros Hfound.
  rewrite (get_spn_value_found db message_data spn e validate Hfound).
  cbv zeta.
  destruct (all_true _); [eauto |].
  destruct (is_spn_bitencoded _); [eauto |].
  destruct (_ && _); eauto.
Qed.






End DescriberProperties.


(** ** Transport reassembler *)

Section ReassemblerProperties.
Context {T : Type}.

Lemma set_new_data_id (st : bam_state) (sa : Z) (buf : list byte) :
  new_data st !! sa = Some buf -> set_new_data sa buf st = st.
Proof.
  intros Hbuf. destruct st as [pgns datas packets lengths].
  unfold set_new_data. cbn in *. now rewrite insert_id.
Qed.

Lemma set_new_data_twice (st : bam_state) (sa : Z) (buf1 buf2 : list byte) :
  set_new_data sa buf2 (set_new_data sa buf1 st) = set_new_data sa buf2 st.
Proof. unfold set_new_data. cbn. now rewrite insert_insert_eq. Qed.

Lemma list_setitem_length {A : Type} (l l' : list A) (idx : Z) (x : A) :
  list_setitem l idx x = Ok l' -> length l' = length l.
Proof.
  unfold list_setitem. destruct (_ && _); [| discriminate].
  intros [= <-]. apply length_insert.
Qed.

Lemma list_setitem_inside {A : Type} (l : list A) (idx : Z) (x : A) :
  0 <= idx < Z.of_nat (length l) ->
  list_setitem l idx x = Ok (<[Z.to_nat idx := x]> l).
Proof.
  intros Hidx. unfold list_setitem.
  destruct (Z.ltb_spec idx 0); [lia |].
  destruct (Z.leb_spec 0 idx); [| lia].
  destruct (Z.ltb_spec idx (Z.of_nat (length l))); [reflexivity | lia].
Qed.

Lemma list_setitem_wrap {A : Type} (l : list A) (idx : Z) (x : A) :
  - Z.of_nat (length l) <= idx < 0 ->
  list_setitem l idx x = Ok (<[Z.to_nat (idx + Z.of_nat (length l)) := x]> l).
Proof.
  intros Hidx. unfold list_setitem.
  destruct (Z.ltb_spec idx 0); [| lia].
  destruct (Z.leb_spec 0 (idx + Z.of_nat (length l))); [| lia].
  destruct (Z.ltb_spec (idx + Z.of_nat (length l)) (Z.of_nat (length l)));
    [reflexivity | lia].
Qed.

Lemma list_setitem_outside {A : Type} (l : list A) (idx : Z) (x : A) :
  Z.of_nat (length l) <= idx \/ idx < - Z.of_nat (length l) ->
  list_setitem l idx x = Raise IndexError.
Proof.
  intros Hidx. unfold list_setitem.
  destruct (Z.ltb_spec idx 0).
  - destruct (Z.leb_spec 0 (idx + Z.of_nat (length l))); [| reflexivity].
    destruct (Z.ltb_spec (idx + Z.of_nat (length l)) (Z.of_nat (length l)));
      [lia | reflexivity].
  - destruct (Z.leb_spec 0 idx); [| lia].
    destruct (Z.ltb_spec idx (Z.of_nat (length l))); [lia | reflexivity].
Qed.


(** One pass of the copy loop, with the buffer of [sa] and the sequence
    number at hand. *)
Lemma store_byte_found (st : bam_state) (message_bytes : list byte)
    (sa seqno i : Z) (b : byte) (buf : list byte) :
  new_data st !! sa = Some buf ->
  byte_at message_bytes 0 = Ok seqno ->
  store_byte (T := T) message_bytes sa (b, i) st
  = match list_setitem buf (i + 7 * (seqno - 1)) b with
    | Ok buf' => (set_new_data sa buf' st, [], Ok tt)
    | Raise e => (st, [Printed e], Ok tt)
    end.
Proof.
  intros Hbuf Hseq.
  unfold store_byte, try_except, bind, get, lift, modify, emit, getitem.
  rewrite Hbuf, Hseq.
  destruct (list_setitem buf _ b); reflexivity.
Qed.

Lemma for_each_cons {A : Type} (x : A) (rest : list A) (body : A -> bam_m T unit)
    (st st1 : bam_state) (ev1 : list (event T)) :
  body x st = (st1, ev1, Ok tt) ->
  for_each (x :: rest) body st
  = let '(st2, ev2, r) := for_each rest body st1 in (st2, ev1 ++ ev2, r).
Proof. intros Hbody. cbn [for_each]. unfold bind. now rewrite Hbody. Qed.

(** The copy loop never raises and leaves a buffer of the same length. *)
Lemma copy_loop_total (message_bytes : list byte) (sa : Z)
    (pairs : list (byte * Z)) (st : bam_state) (buf : list byte) :
  new_data st !! sa = Some buf ->
  exists buf' printed,
    for_each pairs (store_byte (T := T) message_bytes sa) st
    = (set_new_data sa buf' st, printed, Ok tt)
    /\ length buf' = length buf.
Proof.
  revert st buf. induction pairs as [|[b i] pairs IH]; intros st buf Hbuf.
  - exists buf, []. split; [| reflexivity].
    cbn [for_each]. unfold ret. now rewrite set_new_data_id.
  - assert (Hstep : exists buf1 ev1,
               store_byte (T := T) message_bytes sa (b, i) st
               = (set_new_data sa buf1 st, ev1, Ok tt)
               /\ length buf1 = length buf).
    { unfold store_byte, try_except, bind, get, lift, modify, emit, getitem.
      rewrite Hbuf.
      destruct (byte_at message_bytes 0) as [seqno|e].
      - destruct (list_setitem buf _ b) as [buf1|e] eqn:Hset.
        + exists buf1, []. split; [reflexivity |].
          apply (list_setitem_length _ _ _ _ Hset).
        + exists buf, [Printed e]. now rewrite set_new_data_id.
      - exists buf, [Printed e]. now rewrite set_new_data_id. }
    destruct Hstep as (buf1 & ev1 & Hstep & Hlen1).
    destruct (IH (set_new_data sa buf1 st) buf1) as (buf' & printed & Hloop & Hlen).
    { cbn. apply lookup_insert_eq. }
    exists buf', (ev1 ++ printed).
    rewrite (for_each_cons _ _ _ _ _ _ Hstep), Hloop, set_new_data_twice.
    split; [reflexivity | congruence].
Qed.

(** The copy loop when every index it uses falls on position [pos + i]
    of the buffer: the bytes land in a row from [pos + k]. *)
Lemma copy_loop_inside (message_bytes : list byte) (sa seqno : Z) (pos len : nat) :
  byte_at message_bytes 0 = Ok seqno ->
  (pos + 7 <= len)%nat ->
  (forall (i : nat) (l : list byte) (b : byte),
      (i < 7)%nat -> length l = len ->
      list_setitem l (Z.of_nat i + 7 * (seqno - 1)) b = Ok (<[(pos + i)%nat := b]> l)) ->
  forall (data : list byte) (k n : nat) (buf : list byte) (st : bam_state),
    new_data st !! sa = Some buf ->
    length buf = len ->
    (k + n <= 7)%nat ->
    for_each (zip data (Z.of_nat <$> seq k n)) (store_byte (T := T) message_bytes sa) st
    = (set_new_data sa
         (take (pos + k) buf ++ take n data
          ++ drop (pos + k + Nat.min n (length data)) buf) st,
       [], Ok tt).
Proof.
  intros Hseq Hpos Hset.
  induction data as [|b data IH]; intros k n buf st Hbuf Hlen Hkn.
  - cbn [zip zip_with for_each]. unfold ret.
    rewrite take_nil, Nat.min_0_r, Nat.add_0_r. cbn [app length].
    now rewrite take_drop, set_new_data_id.
  - destruct n as [|n].
    + cbn [seq fmap list_fmap zip zip_with for_each]. unfold ret.
      cbn [take Nat.min app]. rewrite Nat.add_0_r.
      now rewrite take_drop, set_new_data_id.
    + cbn [seq]. rewrite fmap_cons. cbn [zip zip_with].
      erewrite for_each_cons;
        [| rewrite (store_byte_found st message_bytes sa seqno _ b buf Hbuf Hseq),
             Hset by lia; reflexivity].
      rewrite (IH (S k) n (<[(pos + k)%nat := b]> buf)
                 (set_new_data sa (<[(pos + k)%nat := b]> buf) st));
        [| cbn; apply lookup_insert_eq | now rewrite length_insert | lia].
      rewrite set_new_data_twice. cbn [app length Nat.min take].
      f_equal. f_equal. f_equal.
      replace (pos + S k)%nat with (S (pos + k)) by lia.
      rewrite (take_S_r _ _ b) by (apply list_lookup_insert_eq; lia).
      rewrite take_insert_ge by lia.
      rewrite drop_insert_lt by lia.
      rewrite <- app_assoc. cbn [app].
      replace (S (pos + k) + Nat.min n (length data))%nat
        with (pos + k + S (Nat.min n (length data)))%nat by lia.
      reflexivity.
Qed.

(** The copy loop when every index it uses is outside the buffer: each
    byte is dropped with a printed [IndexError]. *)
Lemma copy_loop_outside (message_bytes : list byte) (sa seqno : Z)
    (buf : list byte) (st : bam_state) :
  byte_at message_bytes 0 = Ok seqno ->
  new_data st !! sa = Some buf ->
  (forall (i : nat) (b : byte),
      (i < 7)%nat ->
      list_setitem buf (Z.of_nat i + 7 * (seqno - 1)) b = Raise IndexError) ->
  forall (data : list byte) (k n : nat),
    (k + n <= 7)%nat ->
    for_each (zip data (Z.of_nat <$> seq k n)) (store_byte (T := T) message_bytes sa) st
    = (st, replicate (Nat.min n (length data)) (Printed IndexError), Ok tt).
Proof.
  intros Hseq Hbuf Hset.
  induction data as [|b data IH]; intros k n Hkn.
  - cbn [zip zip_with for_each length]. now rewrite Nat.min_0_r.
  - destruct n as [|n]; [reflexivity |].
    cbn [seq]. rewrite fmap_cons. cbn [zip zip_with].
    erewrite for_each_cons;
      [| rewrite (store_byte_found st message_bytes sa seqno _ b buf Hbuf Hseq),
           Hset by lia; reflexivity].
    rewrite (IH (S k) n) by lia. reflexivity.
Qed.

Lemma py_slice_prefix {A : Type} (l : list A) (len : Z) :
  0 <= len -> py_slice l 0 len = take (Z.to_nat len) l.
Proof.
  intros Hlen. unfold py_slice.
  change (0 <? 0) with false. cbv iota.
  destruct (Z.ltb_spec len 0); [lia |].
  rewrite Z.max_id.
  destruct (Z.ltb_spec 0 (Z.min len (Z.of_nat (length l)))) as [Hpos | Hzero].
  - rewrite Z.sub_0_r. change (Z.to_nat 0) with 0%nat. rewrite drop_0.
    destruct (Z.min_spec len (Z.of_nat (length l))) as [[_ ->] | [Hle ->]];
      [reflexivity |].
    rewrite Nat2Z.id. rewrite !take_ge; [reflexivity | lia | lia].
  - destruct (Z.min_spec len (Z.of_nat (length l))) as [[_ Hmin] | [_ Hmin]];
      rewrite Hmin in Hzero.
    + replace len with 0 by lia. reflexivity.
    + destruct l; [now rewrite take_nil | cbn [length] in Hzero; lia].
Qed.

(** A data-transfer frame for an address with a session, given what the
    copy loop did. *)
Lemma process_data_transfer (st : bam_state) (message_bytes : list byte)
    (message_id sa : Z) (timestamp : T) (pgn len packets seqno : Z)
    (buf buf' : list byte) (printed : list (event T)) :
  is_data_transfer_message message_id = true ->
  session_at st sa pgn len packets buf ->
  byte_at message_bytes 0 = Ok seqno ->
  for_each (zip (drop 1 message_bytes) (Z.of_nat <$> seq 0 7))
    (store_byte (T := T) message_bytes sa) st
  = (set_new_data sa buf' st, printed, Ok tt) ->
  process_for_bams message_bytes message_id sa timestamp st
  = (set_new_data sa buf' st,
     printed ++ (if seqno =? packets
                 then [BamFound (py_slice buf' 0 len) sa pgn timestamp]
                 else []),
     Ok tt).
Proof.
  intros Hdt (Hpgn & Hlen & Hpackets & Hbuf) Hseq Hloop.
  unfold process_for_bams.
  rewrite (data_transfer_not_connection_management _ Hdt), Hdt.
  unfold bind at 1. unfold get at 1.
  rewrite bool_decide_true by (apply elem_of_dom; eauto).
  change [0; 1; 2; 3; 4; 5; 6] with (Z.of_nat <$> seq 0 7).
  unfold bind at 1. rewrite Hloop.
  unfold bind, get, lift, ret, emit, getitem. rewrite Hseq.
  cbn [set_new_data new_packets new_data new_length new_pgn].
  rewrite Hpackets.
  destruct (seqno =? packets).
  - rewrite lookup_insert_eq, Hlen, Hpgn. reflexivity.
  - reflexivity.
Qed.

(** A data-transfer frame with a sequence number from 1 to the announced
    packet count writes its data bytes at offset [7 * (seqno - 1)]. *)
Lemma process_data_transfer_inside (st : bam_state) (message_bytes : list byte)
    (message_id sa : Z) (timestamp : T) (pgn len packets seqno : Z)
    (buf : list byte) :
  is_data_transfer_message message_id = true ->
  session_at st sa pgn len packets buf ->
  Z.of_nat (length buf) = 7 * packets ->
  byte_at message_bytes 0 = Ok seqno ->
  1 <= seqno <= packets ->
  let pos := Z.to_nat (7 * (seqno - 1)) in
  let data := drop 1 message_bytes in
  let buf' := take pos buf ++ take 7 data
              ++ drop (pos + Nat.min 7 (length data)) buf in
  process_for_bams message_bytes message_id sa timestamp st
  = (set_new_data sa buf' st,
     (if seqno =? packets
      then [BamFound (py_slice buf' 0 len) sa pgn timestamp]
      else []),
     Ok tt).
Proof.
  intros Hdt Hsession Hsize Hseq Hrange pos data buf'.
  rewrite (process_data_transfer st message_bytes message_id sa timestamp
             pgn len packets seqno buf buf' [] Hdt Hsession Hseq);
    [reflexivity |].
  unfold buf'.
  replace pos with (pos + 0)%nat at 1 2 by lia.
  apply (copy_loop_inside message_bytes sa seqno pos (length buf) Hseq);
    [lia | | apply Hsession | reflexivity | lia].
  intros i l b Hi Hl. rewrite list_setitem_inside by lia.
  do 2 f_equal. lia.
Qed.


(** C5: a data-transfer frame for an address without a session changes
    nothing, emits nothing and returns; a data-transfer frame whose
    sequence number exceeds the announced packet count returns as well,
    with the dictionaries unchanged, no completion, and one printed
    [IndexError] for each data byte it carried. *)
Theorem process_for_bams_malformed (st : bam_state) (message_bytes : list byte)
    (message_id sa : Z) (timestamp : T) :
  is_data_transfer_message message_id = true ->
  (new_data st !! sa = None ->
   process_for_bams message_bytes message_id sa timestamp st = (st, [], Ok tt))
  /\ (forall (pgn len packets seqno : Z) (buf : list byte),
        session_at st sa pgn len packets buf ->
        Z.of_nat (length buf) = 7 * packets ->
        byte_at message_bytes 0 = Ok seqno ->
        packets < seqno ->
        process_for_bams message_bytes message_id sa timestamp st
        = (st,
           replicate (Nat.min 7 (length (drop 1 message_bytes)))
             (Printed IndexError),
           Ok tt)).
Proof.
  intros Hdt. split.
  - intros Hnone. unfold process_for_bams.
    rewrite (data_transfer_not_connection_management _ Hdt), Hdt.
    unfold bind, get.
    rewrite bool_decide_false; [reflexivity |].
    rewrite elem_of_dom, Hnone. intros [? ?]. discriminate.
  - intros pgn len packets seqno buf Hsession Hsize Hseq Hgt.
    pose proof Hsession as (_ & _ & _ & Hbuf).
    rewrite (process_data_transfer st message_bytes message_id sa timestamp
               pgn len packets seqno buf buf
               (replicate (Nat.min 7 (length (drop 1 message_bytes)))
                  (Printed IndexError)) Hdt Hsession Hseq).
    + destruct (Z.eqb_spec seqno packets); [lia |].
      now rewrite set_new_data_id, app_nil_r.
    + rewrite (set_new_data_id _ _ _ Hbuf).
      apply (copy_loop_outside message_bytes sa seqno buf st Hseq Hbuf); [| lia].
      intros i b Hi. apply list_setitem_outside. lia.
Qed.

(** C9: for a session that announced at least one packet, a data-transfer
    frame of eight bytes or more whose sequence number is 0 is not
    dropped: its seven data bytes replace the last seven bytes of the
    buffer, nothing is printed and no completion is emitted. *)
Theorem process_for_bams_sequence_zero (st : bam_state) (message_bytes : list byte)
    (message_id sa : Z) (timestamp : T) (pgn len packets : Z) (buf : list byte) :
  is_data_transfer_message message_id = true ->
  session_at st sa pgn len packets buf ->
  Z.of_nat (length buf) = 7 * packets ->
  1 <= packets ->
  byte_at message_bytes 0 = Ok 0 ->
  (8 <= length message_bytes)%nat ->
  process_for_bams message_bytes message_id sa timestamp st
  = (set_new_data sa (take (length buf - 7) buf ++ take 7 (drop 1 message_bytes)) st,
     [], Ok tt).
Proof.
  intros Hdt Hsession Hsize Hpackets Hseq Hlen.
  rewrite (process_data_transfer st message_bytes message_id sa timestamp
             pgn len packets 0 buf
             (take (length buf - 7) buf ++ take 7 (drop 1 message_bytes)) []
             Hdt Hsession Hseq).
  - destruct (Z.eqb_spec 0 packets); [lia | reflexivity].
  - rewrite (copy_loop_inside message_bytes sa 0 (length buf - 7) (length buf) Hseq)
      with (buf := buf); [| lia | | apply Hsession | reflexivity | lia].
    + rewrite Nat.add_0_r, length_drop, Nat.min_l by lia.
      rewrite (drop_ge buf) by lia. now rewrite app_nil_r.
    + intros i l b Hi Hl. rewrite list_setitem_wrap by lia.
      do 2 f_equal. lia.
Qed.

(** A connection-management frame of eight bytes or more. *)
Lemma process_bam_frame (st : bam_state) (message_id sa : Z) (timestamp : T)
    (b0 b1 b2 b3 b4 b5 b6 b7 : byte) (rest : list byte) :
  is_connection_management_message message_id = true ->
  process_for_bams (b0 :: b1 :: b2 :: b3 :: b4 :: b5 :: b6 :: b7 :: rest)
    message_id sa timestamp st
  = if byte_value b0 =? 32
    then (set_new_data sa (replicate (Z.to_nat (7 * byte_value b3)) xff)
            (set_new_packets sa (byte_value b3)
               (set_new_length sa (Z.shiftl (byte_value b2) 8 + byte_value b1)
                  (set_new_pgn sa
                     (Z.shiftl (byte_value b7) 16 + Z.shiftl (byte_value b6) 8
                      + byte_value b5) st))),
          [], Ok tt)
    else (st, [], Ok tt).
Proof.
  intros Hcm. unfold process_for_bams. rewrite Hcm.
  unfold bind, lift, get, modify, ret, getitem, is_bam_cts_message, byte_at, rbind.
  cbn [lookup list_lookup]. fold (byte_value b0).
  destruct (byte_value b0 =? 32); [| reflexivity].
  cbn [set_new_packets new_packets]. rewrite lookup_insert_eq. reflexivity.
Qed.

Lemma bam_inv_fresh (st : bam_state) (sa pgn len packets : Z) :
  bam_inv st -> 0 <= len -> 0 <= packets ->
  bam_inv (set_new_data sa (replicate (Z.to_nat (7 * packets)) xff)
             (set_new_packets sa packets
                (set_new_length sa len (set_new_pgn sa pgn st)))).
Proof.
  intros Hinv Hlen Hpackets sa' buf Hbuf.
  cbn [set_new_data set_new_packets set_new_length set_new_pgn new_data] in Hbuf.
  unfold session_at.
  cbn [set_new_data set_new_packets set_new_length set_new_pgn
       new_data new_pgn new_packets new_length].
  destruct (decide (sa' = sa)) as [-> | Hne].
  - rewrite lookup_insert_eq in Hbuf. injection Hbuf as <-.
    exists pgn, len, packets. rewrite !lookup_insert_eq.
    split; [repeat split |]. split; [| exact Hlen].
    rewrite length_replicate. lia.
  - rewrite lookup_insert_ne in Hbuf by congruence.
    destruct (Hinv sa' buf Hbuf) as (pgn' & len' & packets' & Hs & Hsize & Hlen').
    exists pgn', len', packets'. rewrite !lookup_insert_ne by congruence.
    split; [exact Hs |]. split; assumption.
Qed.

Lemma bam_inv_set_new_data (st : bam_state) (sa : Z) (buf buf' : list byte) :
  bam_inv st -> new_data st !! sa = Some buf -> length buf' = length buf ->
  bam_inv (set_new_data sa buf' st).
Proof.
  intros Hinv Hbuf Hsame sa' l Hl.
  cbn [set_new_data new_data] in Hl. unfold session_at.
  cbn [set_new_data new_data new_pgn new_packets new_length].
  destruct (decide (sa' = sa)) as [-> | Hne].
  - rewrite lookup_insert_eq in Hl. injection Hl as <-.
    destruct (Hinv sa buf Hbuf) as (pgn & len & packets & Hs & Hsize & Hlen).
    exists pgn, len, packets. rewrite lookup_insert_eq, Hsame.
    unfold session_at in Hs. tauto.
  - rewrite lookup_insert_ne in Hl by congruence.
    destruct (Hinv sa' l Hl) as (pgn & len & packets & Hs & Hsize & Hlen).
    exists pgn, len, packets. rewrite lookup_insert_ne by congruence.
    unfold session_at in Hs. tauto.
Qed.

Lemma byte_value_range (b : byte) : 0 <= byte_value b < 256.
Proof. unfold byte_value. pose proof (Byte.to_N_bounded b). lia. Qed.

Lemma announced_length_nonneg (b1 b2 : byte) :
  0 <= Z.shiftl (byte_value b2) 8 + byte_value b1.
Proof.
  rewrite Z.shiftl_mul_pow2 by lia.
  pose proof (byte_value_range b1). pose proof (byte_value_range b2). lia.
Qed.

(** C6: a BAM frame (control byte 32) for [sa] returns without an event
    and leaves for [sa] exactly the session that the frame announces, with
    a buffer of [7 * packets] bytes [0xFF], whatever the dictionaries held
    for [sa] before; the other addresses keep their entries.  A final data
    frame that follows completes with the PGN and length of this BAM and
    with no byte of an earlier buffer. *)
Theorem process_for_bams_bam_overwrites (st : bam_state) (message_id sa : Z)
    (timestamp : T) (b1 b2 b3 b4 b5 b6 b7 : byte) (rest : list byte) :
  is_connection_management_message message_id = true ->
  let message_bytes := x20 :: b1 :: b2 :: b3 :: b4 :: b5 :: b6 :: b7 :: rest in
  let pgn := Z.shiftl (byte_value b7) 16 + Z.shiftl (byte_value b6) 8 + byte_value b5 in
  let len := Z.shiftl (byte_value b2) 8 + byte_value b1 in
  let packets := byte_value b3 in
  let fresh := replicate (Z.to_nat (7 * packets)) xff in
  let st' := set_new_data sa fresh
               (set_new_packets sa packets
                  (set_new_length sa len (set_new_pgn sa pgn st))) in
  process_for_bams message_bytes message_id sa timestamp st = (st', [], Ok tt)
  /\ session_at st' sa pgn len packets fresh
  /\ (forall sa', sa' <> sa ->
        new_pgn st' !! sa' = new_pgn st !! sa'
        /\ new_length st' !! sa' = new_length st !! sa'
        /\ new_packets st' !! sa' = new_packets st !! sa'
        /\ new_data st' !! sa' = new_data st !! sa')
  /\ (forall (data_bytes : list byte) (data_id : Z) (timestamp' : T),
        is_data_transfer_message data_id = true ->
        byte_at data_bytes 0 = Ok packets ->
        (8 <= length data_bytes)%nat ->
        1 <= packets ->
        exists st'',
          process_for_bams data_bytes data_id sa timestamp' st'
          = (st'',
             [BamFound
                (take (Z.to_nat len)
                   (replicate (Z.to_nat (7 * (packets - 1))) xff
                    ++ take 7 (drop 1 data_bytes)))
                sa pgn timestamp'],
             Ok tt)).
Proof.
  intros Hcm message_bytes pgn len packets fresh st'.
  assert (Hsession : session_at st' sa pgn len packets fresh).
  { unfold st', session_at.
    cbn [set_new_data set_new_packets set_new_length set_new_pgn
         new_data new_pgn new_packets new_length].
    now rewrite !lookup_insert_eq. }
  split; [| split; [exact Hsession | split]].
  - unfold message_bytes.
    now rewrite (process_bam_frame st message_id sa timestamp x20 b1 b2 b3 b4 b5 b6 b7
                   rest Hcm).
  - intros sa' Hne. unfold st'.
    cbn [set_new_data set_new_packets set_new_length set_new_pgn
         new_data new_pgn new_packets new_length].
    now rewrite !lookup_insert_ne by congruence.
  - intros data_bytes data_id timestamp' Hdt Hseq Hlong Hpackets.
    assert (Hsize : Z.of_nat (length fresh) = 7 * packets).
    { unfold fresh. rewrite length_replicate. lia. }
    assert (Hlen : 0 <= len) by apply announced_length_nonneg.
    eexists.
    rewrite (process_data_transfer_inside st' data_bytes data_id sa timestamp'
               pgn len packets packets fresh Hdt Hsession Hsize Hseq) by lia.
    rewrite Z.eqb_refl, py_slice_prefix by exact Hlen.
    rewrite length_drop, Nat.min_l by lia.
    rewrite (drop_ge fresh) by lia.
    rewrite app_nil_r. unfold fresh at 2. rewrite take_replicate.
    rewrite Nat.min_l by lia.
    reflexivity.
Qed.

(** Every call keeps [bam_inv], also a call that raises. *)
Lemma process_for_bams_inv (st : bam_state) (message_bytes : list byte)
    (message_id sa : Z) (timestamp : T) :
  bam_inv st ->
  bam_inv (fst (fst (process_for_bams message_bytes message_id sa timestamp st))).
Proof.
  intros Hinv.
  destruct (is_connection_management_message message_id) eqn:Hcm.
  - destruct message_bytes as [|b0 [|b1 [|b2 [|b3 [|b4 [|b5 [|b6 [|b7 rest]]]]]]]];
      [unfold process_for_bams; rewrite Hcm;
       unfold bind, lift, get, modify, ret, getitem, is_bam_cts_message, byte_at, rbind;
       cbn [lookup list_lookup fst];
       try exact Hinv;
       destruct (Z.of_N (Byte.to_N b0) =? 32); exact Hinv .. |].
    rewrite (process_bam_frame st message_id sa timestamp b0 b1 b2 b3 b4 b5 b6 b7
               rest Hcm).
    destruct (byte_value b0 =? 32); [| exact Hinv].
    apply bam_inv_fresh; [exact Hinv | apply announced_length_nonneg |].
    apply byte_value_range.
  - unfold process_for_bams. rewrite Hcm.
    destruct (is_data_transfer_message message_id); [| exact Hinv].
    unfold bind at 1. unfold get at 1.
    destruct (bool_decide (sa ∈ dom (new_data st))) eqn:Hin; [| exact Hinv].
    apply bool_decide_eq_true in Hin. apply elem_of_dom in Hin as [buf Hbuf].
    destruct (copy_loop_total message_bytes sa
                (zip (drop 1 message_bytes) [0; 1; 2; 3; 4; 5; 6]) st buf Hbuf)
      as (buf' & printed & Hloop & Hsame).
    assert (Hinv' : bam_inv (set_new_data sa buf' st))
      by exact (bam_inv_set_new_data st sa buf buf' Hinv Hbuf Hsame).
    unfold bind at 1. rewrite Hloop.
    unfold bind, lift, get, ret, emit, getitem.
    destruct (byte_at message_bytes 0) as [seqno|]; [| exact Hinv'].
    destruct (new_packets (set_new_data sa buf' st) !! sa) as [packets|];
      [| exact Hinv'].
    destruct (seqno =? packets); [| exact Hinv'].
    destruct (new_data (set_new_data sa buf' st) !! sa); [| exact Hinv'].
    destruct (new_length (set_new_data sa buf' st) !! sa); [| exact Hinv'].
    destruct (new_pgn (set_new_data sa buf' st) !! sa); exact Hinv'.
Qed.

Lemma bam_inv_init : bam_inv bam_init.
Proof. intros sa buf Hbuf. cbn in Hbuf. now rewrite lookup_empty in Hbuf. Qed.

(** [bam_inv] holds of the dictionaries after any list of frames fed to a
    new processor. *)
Lemma process_frames_inv (frames : list (list byte * Z * Z * T)) (st : bam_state) :
  bam_inv st -> bam_inv (fst (fst (process_frames frames st))).
Proof.
  revert st. induction frames as [|[[[message_bytes message_id] sa] timestamp] rest IH];
    intros st Hinv.
  - exact Hinv.
  - cbn [process_frames]. unfold bind.
    pose proof (process_for_bams_inv st message_bytes message_id sa timestamp Hinv)
      as Hstep.
    destruct (process_for_bams message_bytes message_id sa timestamp st)
      as [[st1 ev1] [[]|e]]; cbn [fst] in Hstep.
    + specialize (IH st1 Hstep).
      destruct (process_frames rest st1) as [[st2 ev2] r]. exact IH.
    + exact Hstep.
Qed.

End ReassemblerProperties.



Lemma process_for_bams_malformed_witness :
  process_for_bams (T := Z) Example.dt9 Example.dt_id 0 2 bam_init
  = (bam_init, [], Ok tt)
  /\ process_for_bams (T := Z) Example.dt9 Example.dt_id 0 2 Example.after_bam
     = (Example.after_bam, replicate 7 (Printed IndexError), Ok tt).
Proof.
  split.
  - apply (proj1 (process_for_bams_malformed (T := Z) bam_init Example.dt9
                    Example.dt_id 0 2 eq_refl)).
    reflexivity.
  - apply (proj2 (process_for_bams_malformed (T := Z) Example.after_bam Example.dt9
                    Example.dt_id 0 2 eq_refl)
             65259 11 2 9 (replicate 14 xff)).
    + repeat split; reflexivity.
    + reflexivity.
    + reflexivity.
    + lia.
Defined.

Lemma process_for_bams_sequence_zero_witness :
  process_for_bams (T := Z) Example.dt0 Example.dt_id 0 2 Example.after_bam
  = (set_new_data 0
       ([xff; xff; xff; xff; xff; xff; xff] ++ [x31; x32; x33; x34; x35; x36; x37])
       Example.after_bam,
     [], Ok tt).
Proof.
  apply (process_for_bams_sequence_zero (T := Z) Example.after_bam Example.dt0
           Example.dt_id 0 2 65259 11 2 (replicate 14 xff)).
  - reflexivity.
  - repeat split; reflexivity.
  - reflexivity.
  - lia.
  - reflexivity.
  - cbn. lia.
Defined.

Lemma process_for_bams_bam_overwrites_witness :
  exists st',
    process_for_bams (T := Z) [x20; x09; x00; x02; xff; xca; xfe; x00]
      Example.cm_id 0 5 Example.after_dt1 = (st', [], Ok tt)
    /\ session_at st' 0 65226 9 2 (replicate 14 xff).
Proof.
  destruct (process_for_bams_bam_overwrites (T := Z) Example.after_dt1 Example.cm_id 0 5
              x09 x00 x02 xff xca xfe x00 [] eq_refl)
    as (Hcall & Hsession & _).
  eexists. split; [exact Hcall | exact Hsession].
Defined.

(** * Further properties *)

(** ** Identifier decomposer *)

(** X1: building an identifier from the bits above the PDU format, a PDU
    format byte, a PDU specific byte and a source address, and decomposing
    it, gives back the three bytes: the PGN is [pf * 256] with the
    destination [ps] below 240, and [pf * 256 + ps] with the destination
    255 from 240 on. *)
Theorem parse_j1939_id_compose (high pf ps sa : Z) :
  0 <= pf < 256 -> 0 <= ps < 256 -> 0 <= sa < 256 ->
  parse_j1939_id (high * 16777216 + pf * 65536 + ps * 256 + sa)
  = if 240 <=? pf then (pf * 256 + ps, 255, sa) else (pf * 256, ps, sa).
Proof.
  intros Hpf Hps Hsa.
  set (can_id := high * 16777216 + pf * 65536 + ps * 256 + sa).
  assert (Esa : Z.land SA_MASK can_id = sa).
  { rewrite Z.land_comm. change SA_MASK with (Z.ones 8).
    rewrite Z.land_ones by lia. unfold can_id.
    replace (high * 16777216 + pf * 65536 + ps * 256 + sa)
      with (sa + (high * 65536 + pf * 256 + ps) * 2 ^ 8) by lia.
    rewrite Z.mod_add by lia. apply Z.mod_small. lia. }
  assert (Epf : Z.shiftr (Z.land PF_MASK can_id) 16 = pf).
  { change PF_MASK with (Z.shiftl 255 16).
    rewrite (land_byte_mask can_id 16) by lia. unfold can_id.
    replace (high * 16777216 + pf * 65536 + ps * 256 + sa)
      with ((ps * 256 + sa) + (high * 256 + pf) * 2 ^ 16) by lia.
    rewrite Z.div_add by lia. rewrite (Z.div_small (ps * 256 + sa)) by lia.
    rewrite Z.add_0_l, Z.add_comm, Z.mod_add by lia. apply Z.mod_small. lia. }
  assert (Eda : Z.shiftr (Z.land DA_MASK can_id) 8 = ps).
  { change DA_MASK with (Z.shiftl 255 8).
    rewrite (land_byte_mask can_id 8) by lia. unfold can_id.
    replace (high * 16777216 + pf * 65536 + ps * 256 + sa)
      with (sa + (high * 65536 + pf * 256 + ps) * 2 ^ 8) by lia.
    rewrite Z.div_add by lia. rewrite (Z.div_small sa) by lia.
    rewrite Z.add_0_l.
    replace (high * 65536 + pf * 256 + ps) with (ps + (high * 256 + pf) * 256) by lia.
    rewrite Z.mod_add by lia. apply Z.mod_small. lia. }
  unfold parse_j1939_id. fold can_id. rewrite Esa, Epf, Eda. reflexivity.
Qed.

Lemma parse_j1939_id_compose_witness :
  parse_j1939_id (6 * 16777216 + 236 * 65536 + 255 * 256 + 0) = (60416, 255, 0).
Proof.
  apply (parse_j1939_id_compose 6 236 255 0); lia.
Defined.

Lemma parse_j1939_id_bytes (can_id : Z) :
  parse_j1939_id can_id
  = let sa := can_id mod 256 in
    let pf := (can_id / 65536) mod 256 in
    let da := (can_id / 256) mod 256 in
    if 240 <=? pf then (pf * 256 + da, 255, sa) else (pf * 256, da, sa).
Proof.
  unfold parse_j1939_id.
  change PF_MASK with (Z.shiftl 255 16). change DA_MASK with (Z.shiftl 255 8).
  rewrite (land_byte_mask can_id 16), (land_byte_mask can_id 8) by lia.
  rewrite Z.land_comm. change SA_MASK with (Z.ones 8).
  rewrite Z.land_ones by lia. reflexivity.
Qed.

(** X2: whatever the identifier, the source and destination addresses are
    bytes and the PGN is below 65536; a PGN below 61440 (PDU1) has a zero
    low byte. *)
Theorem parse_j1939_id_range (can_id : Z) :
  let '(pgn, da, sa) := parse_j1939_id can_id in
  0 <= pgn < 65536 /\ 0 <= da < 256 /\ 0 <= sa < 256
  /\ (pgn < 61440 -> pgn mod 256 = 0).
Proof.
  rewrite parse_j1939_id_bytes. cbv zeta.
  pose proof (Z.mod_pos_bound can_id 256 ltac:(lia)).
  pose proof (Z.mod_pos_bound (can_id / 65536) 256 ltac:(lia)).
  pose proof (Z.mod_pos_bound (can_id / 256) 256 ltac:(lia)).
  destruct (Z.leb_spec 240 ((can_id / 65536) mod 256)).
  - repeat split; lia.
  - repeat split; try lia. intros _. apply Z.mod_mul. lia.
Qed.

Lemma land_pf_mask (message_id : Z) :
  Z.land message_id PF_MASK = ((message_id / 65536) mod 256) * 65536.
Proof.
  change PF_MASK with (Z.shiftl 255 16).
  transitivity (Z.shiftl (Z.land (Z.shiftr message_id 16) 255) 16).
  - apply Z.bits_inj'. intros n Hn.
    rewrite Z.land_spec, !Z.shiftl_spec, Z.land_spec by lia.
    destruct (Z.lt_ge_cases n 16) as [Hlt | Hge].
    + rewrite !(Z.testbit_neg_r _ (n - 16)) by lia. apply andb_false_r.
    + rewrite Z.shiftr_spec by lia. do 2 f_equal. lia.
  - change 255 with (Z.ones 8).
    rewrite Z.land_ones, Z.shiftr_div_pow2, Z.shiftl_mul_pow2 by lia.
    reflexivity.
Qed.

(** X3: the frame classes are decided by the PDU format byte alone: a
    connection-management frame has the byte 0xEC, a data-transfer frame
    0xEB, a transport frame one of the two, and no frame is both. *)
Theorem transport_classification (message_id : Z) :
  let pf := (message_id / 65536) mod 256 in
  (is_connection_management_message message_id = true <-> pf = 236)
  /\ (is_data_transfer_message message_id = true <-> pf = 235)
  /\ (is_transport_message message_id = true <-> pf = 235 \/ pf = 236)
  /\ (is_connection_management_message message_id = true ->
      is_data_transfer_message message_id = false).
Proof.
  intros pf.
  assert (Hcm : is_connection_management_message message_id = true <-> pf = 236).
  { unfold is_connection_management_message.
    rewrite Z.eqb_eq, land_pf_mask. fold pf. lia. }
  assert (Hdt : is_data_transfer_message message_id = true <-> pf = 235).
  { unfold is_data_transfer_message.
    rewrite Z.eqb_eq, land_pf_mask. fold pf. lia. }
  split; [exact Hcm |]. split; [exact Hdt |]. split.
  - unfold is_transport_message. rewrite orb_true_iff, Hcm, Hdt. reflexivity.
  - intros Hyes. apply Hcm in Hyes.
    destruct (is_data_transfer_message message_id); [| reflexivity].
    assert (pf = 235) by now apply Hdt. lia.
Qed.

(** X4: every connection-management frame decomposes to the PGN 60416 and
    every data-transfer frame to the PGN 60160, each with the middle byte of
    the identifier as destination address. *)
Theorem transport_pgn (message_id : Z) :
  (is_connection_management_message message_id = true ->
   parse_j1939_id message_id
   = (60416, (message_id / 256) mod 256, message_id mod 256))
  /\ (is_data_transfer_message message_id = true ->
      parse_j1939_id message_id
      = (60160, (message_id / 256) mod 256, message_id mod 256)).
Proof.
  unfold is_connection_management_message, is_data_transfer_message.
  rewrite !Z.eqb_eq, land_pf_mask, parse_j1939_id_bytes. cbv zeta.
  split; intros Hpf.
  - replace ((message_id / 65536) mod 256) with 236 by lia. reflexivity.
  - replace ((message_id / 65536) mod 256) with 235 by lia. reflexivity.
Qed.

Lemma transport_pgn_witness :
  parse_j1939_id Example.cm_id = (60416, 255, 0)
  /\ parse_j1939_id Example.dt_id = (60160, 255, 0).
Proof.
  split.
  - apply (proj1 (transport_pgn Example.cm_id)). reflexivity.
  - apply (proj2 (transport_pgn Example.dt_id)). reflexivity.
Defined.

Lemma parse_j1939_id_range_witness :
  let '(pgn, da, sa) := parse_j1939_id 0x18EF1234 in
  0 <= pgn < 65536 /\ 0 <= da < 256 /\ 0 <= sa < 256
  /\ (pgn < 61440 -> pgn mod 256 = 0).
Proof. exact (parse_j1939_id_range 0x18EF1234). Defined.

Lemma transport_classification_witness :
  is_connection_management_message Example.cm_id = true
  /\ is_data_transfer_message Example.cm_id = false.
Proof.
  destruct (transport_classification Example.cm_id) as (Hcm & _ & _ & Hexcl).
  assert (Hyes : is_connection_management_message Example.cm_id = true)
    by (apply (proj2 Hcm); reflexivity).
  split; [exact Hyes | exact (Hexcl Hyes)].
Defined.

(** ** Bit strings *)

Lemma uint_of_bits_from (bits : list bool) (acc : Z) :
  fold_left (fun a (b : bool) => 2 * a + Z.b2z b) bits acc
  = acc * 2 ^ Z.of_nat (length bits) + uint_of_bits bits.
Proof.
  unfold uint_of_bits. revert acc.
  induction bits as [|b bits IH]; intros acc.
  - cbn. lia.
  - cbn [fold_left length]. rewrite IH, (IH (2 * 0 + Z.b2z b)).
    rewrite Nat2Z.inj_succ, Z.pow_succ_r by lia. lia.
Qed.

Lemma uint_of_bits_cons (b : bool) (bits : list bool) :
  uint_of_bits (b :: bits)
  = Z.b2z b * 2 ^ Z.of_nat (length bits) + uint_of_bits bits.
Proof.
  unfold uint_of_bits at 1. cbn [fold_left]. rewrite uint_of_bits_from. lia.
Qed.

Lemma uint_of_bits_app (xs ys : list bool) :
  uint_of_bits (xs ++ ys)
  = uint_of_bits xs * 2 ^ Z.of_nat (length ys) + uint_of_bits ys.
Proof.
  unfold uint_of_bits at 1. rewrite fold_left_app, uint_of_bits_from.
  reflexivity.
Qed.

Lemma uint_of_bits_bounds (bits : list bool) :
  0 <= uint_of_bits bits <= 2 ^ Z.of_nat (length bits) - 1
  /\ (uint_of_bits bits = 2 ^ Z.of_nat (length bits) - 1 <-> all_true bits = true).
Proof.
  induction bits as [|b bits [Hrange Hones]].
  - cbn. split; [lia | tauto].
  - rewrite uint_of_bits_cons. cbn [length all_true forallb].
    rewrite Nat2Z.inj_succ, Z.pow_succ_r by lia.
    fold (all_true bits).
    assert (0 < 2 ^ Z.of_nat (length bits)) by (apply Z.pow_pos_nonneg; lia).
    destruct b; cbn [Z.b2z id andb].
    + split; [lia |]. rewrite <- Hones. lia.
    + split; [lia |]. split; [lia | discriminate].
Qed.

(** X5: whenever [uint] returns, its result lies between 0 and [2 ^ n - 1]
    for a bit string of [n] bits, and it is [2 ^ n - 1] exactly when every
    bit is set; [uint] raises only on the empty bit string. *)
Theorem uint_range (bits : list bool) :
  match uint bits with
  | Ok n =>
      0 <= n <= 2 ^ Z.of_nat (length bits) - 1
      /\ (n = 2 ^ Z.of_nat (length bits) - 1 <-> all_true bits = true)
  | Raise e => bits = [] /\ e = ValueError
  end.
Proof.
  destruct bits as [|b bits]; [split; reflexivity |].
  cbn [uint]. apply uint_of_bits_bounds.
Qed.

Lemma reversebytes_app (k j : nat) (xs ys : list bool) :
  length xs = (8 * k)%nat ->
  reversebytes (k + j) (xs ++ ys) = reversebytes j ys ++ reversebytes k xs.
Proof.
  revert xs. induction k as [|k IH]; intros xs Hlen.
  - destruct xs; [| discriminate]. cbn. now rewrite app_nil_r.
  - cbn [Nat.add reversebytes].
    rewrite drop_app_le, take_app_le by lia.
    rewrite IH by (rewrite length_drop; lia).
    now rewrite app_assoc.
Qed.

Lemma reversebytes_twice (n : nat) (bits : list bool) :
  (8 * n <= length bits)%nat ->
  reversebytes n (reversebytes n bits) = take (8 * n) bits.
Proof.
  revert bits. induction n as [|n IH]; intros bits Hlen.
  - reflexivity.
  - change (reversebytes (S n) bits)
      with (reversebytes n (drop 8 bits) ++ take 8 bits).
    replace (S n) with (n + 1)%nat at 1 by lia.
    rewrite reversebytes_app
      by (apply length_reversebytes; rewrite length_drop; lia).
    rewrite IH by (rewrite length_drop; lia).
    cbn [reversebytes app]. rewrite take_take, Nat.min_id.
    replace (8 * S n)%nat with (8 + 8 * n)%nat by lia.
    apply take_take_drop.
Qed.

(** X6: [byteswap] undoes itself, for a bit string of any length. *)
Theorem byteswap_involutive (bits : list bool) :
  byteswap (byteswap bits) = bits.
Proof.
  unfold byteswap at 1. rewrite length_byteswap. unfold byteswap.
  set (n := (length bits / 8)%nat).
  assert (Hn : (8 * n <= length bits)%nat).
  { unfold n. pose proof (Nat.div_mod_eq (length bits) 8). lia. }
  pose proof (length_reversebytes n bits Hn) as Hlen.
  replace n with (n + 0)%nat at 1 by lia.
  rewrite reversebytes_app by exact Hlen.
  cbn [reversebytes app].
  rewrite reversebytes_twice by exact Hn.
  rewrite drop_app_length' by (symmetry; exact Hlen).
  apply take_drop.
Qed.

Lemma BitString_cons (b : byte) (message_data : list byte) :
  BitString (b :: message_data) = bits_of_byte b ++ BitString message_data.
Proof. reflexivity. Qed.

Lemma length_bits_of_byte (b : byte) : length (bits_of_byte b) = 8%nat.
Proof. reflexivity. Qed.

Lemma length_BitString (message_data : list byte) :
  length (BitString message_data) = (8 * length message_data)%nat.
Proof.
  induction message_data as [|b rest IH]; [reflexivity |].
  rewrite BitString_cons, length_app, length_bits_of_byte, IH. cbn [length]. lia.
Qed.

Lemma uint_of_bits_byte (b : byte) : uint_of_bits (bits_of_byte b) = byte_value b.
Proof. destruct b; reflexivity. Qed.

Lemma take_BitString (k : nat) (message_data : list byte) :
  take (8 * k) (BitString message_data) = BitString (take k message_data).
Proof.
  revert message_data. induction k as [|k IH]; intros message_data.
  - reflexivity.
  - destruct message_data as [|b rest]; [reflexivity |].
    cbn [take]. rewrite !BitString_cons.
    replace (8 * S k)%nat with (length (bits_of_byte b) + 8 * k)%nat
      by (rewrite length_bits_of_byte; lia).
    now rewrite take_app_add, IH.
Qed.

Lemma drop_BitString (k : nat) (message_data : list byte) :
  drop (8 * k) (BitString message_data) = BitString (drop k message_data).
Proof.
  revert message_data. induction k as [|k IH]; intros message_data.
  - reflexivity.
  - destruct message_data as [|b rest]; [reflexivity |].
    cbn [drop]. rewrite !BitString_cons.
    replace (8 * S k)%nat with (length (bits_of_byte b) + 8 * k)%nat
      by (rewrite length_bits_of_byte; lia).
    now rewrite drop_app_add, IH.
Qed.

Lemma reversebytes_BitString (message_data : list byte) :
  uint_of_bits (reversebytes (length message_data) (BitString message_data))
  = little_endian message_data.
Proof.
  induction message_data as [|b rest IH]; [reflexivity |].
  cbn [length reversebytes little_endian]. rewrite BitString_cons.
  rewrite drop_app_length', take_app_length' by reflexivity.
  rewrite uint_of_bits_app, IH, uint_of_bits_byte, length_bits_of_byte.
  change (2 ^ Z.of_nat 8) with 256. lia.
Qed.

Lemma byteswap_BitString (message_data : list byte) :
  uint_of_bits (byteswap (BitString message_data)) = little_endian message_data.
Proof.
  unfold byteswap. rewrite length_BitString.
  replace (8 * length message_data / 8)%nat with (length message_data)
    by (rewrite Nat.mul_comm, Nat.div_mul; lia).
  rewrite drop_ge by (rewrite length_BitString; lia).
  rewrite app_nil_r. apply reversebytes_BitString.
Qed.

(** ** Signal value extractor *)

Lemma py_slice_inside {A : Type} (l : list A) (start stop : Z) :
  0 <= start -> 0 <= stop ->
  py_slice l start stop
  = take (Z.to_nat (stop - start)) (drop (Z.to_nat start) l).
Proof.
  intros Hstart Hstop. unfold py_slice.
  destruct (Z.ltb_spec start 0); [lia |].
  destruct (Z.ltb_spec stop 0); [lia |].
  rewrite Z.max_l by lia.
  destruct (Z.ltb_spec start (Z.min stop (Z.of_nat (length l)))) as [Hlt | Hge].
  - destruct (Z.min_spec stop (Z.of_nat (length l))) as [[_ ->] | [Hle ->]];
      [reflexivity |].
    rewrite !take_ge; [reflexivity | |]; rewrite length_drop; lia.
  - destruct (Z.min_spec stop (Z.of_nat (length l))) as [[_ Hmin] | [_ Hmin]];
      rewrite Hmin in Hge.
    + replace (Z.to_nat (stop - start)) with 0%nat by lia. reflexivity.
    + rewrite drop_ge by lia. now rewrite take_nil.
Qed.

Lemma py_slice_length_le {A : Type} (l : list A) (start stop : Z) :
  0 <= start <= stop ->
  Z.of_nat (length (py_slice l start stop)) <= stop - start.
Proof.
  intros Hrange. rewrite py_slice_inside by lia.
  rewrite length_take, length_drop. lia.
Qed.

(** X7: for an SPN of the database whose bit range [0 <= StartBit <=
    EndBit] lies within the payload, [get_spn_bytes] returns exactly
    [EndBit - StartBit + 1] bits. *)
Theorem get_spn_bytes_width (db : j1939db) (message_data : list byte) (spn : Z)
    (e : spn_entry) :
  J1939SPNdb db !! spn = Some e ->
  0 <= spn_StartBit e <= spn_EndBit e ->
  spn_EndBit e < 8 * Z.of_nat (length message_data) ->
  exists bits,
    get_spn_bytes db message_data spn = Ok bits
    /\ Z.of_nat (length bits) = spn_EndBit e - spn_StartBit e + 1.
Proof.
  intros Hfound Hrange Hend. eexists.
  split; [apply (get_spn_bytes_found db message_data spn e Hfound) |].
  rewrite length_byteswap, py_slice_inside by lia.
  rewrite length_take, length_drop, length_BitString. lia.
Qed.

Lemma get_spn_bytes_width_witness :
  exists bits,
    get_spn_bytes Example.db [x00; x10; x7d; x00; x20; x00; x00; x00] 190 = Ok bits
    /\ Z.of_nat (length bits) = 39 - 24 + 1.
Proof.
  apply (get_spn_bytes_width Example.db _ 190 Example.engine_speed eq_refl).
  - cbn. lia.
  - cbn. lia.
Defined.

(** X8: a field that starts and ends on byte boundaries is read least
    significant byte first: for [StartBit = 8 * i] and [EndBit = 8 * (i + k)
    - 1] within the payload, the unsigned integer of the bits that
    [get_spn_bytes] returns is the little-endian value of the [k] payload
    bytes from position [i]. *)
Theorem get_spn_bytes_little_endian (db : j1939db) (message_data : list byte)
    (spn : Z) (e : spn_entry) (i k : nat) :
  J1939SPNdb db !! spn = Some e ->
  spn_StartBit e = 8 * Z.of_nat i ->
  spn_EndBit e = 8 * Z.of_nat (i + k) - 1 ->
  exists bits,
    get_spn_bytes db message_data spn = Ok bits
    /\ uint_of_bits bits = little_endian (take k (drop i message_data)).
Proof.
  intros Hfound Hstart Hend. eexists.
  split; [apply (get_spn_bytes_found db message_data spn e Hfound) |].
  rewrite py_slice_inside by lia.
  replace (Z.to_nat (spn_EndBit e + 1 - spn_StartBit e)) with (8 * k)%nat by lia.
  replace (Z.to_nat (spn_StartBit e)) with (8 * i)%nat by lia.
  rewrite drop_BitString, take_BitString.
  apply byteswap_BitString.
Qed.

Lemma get_spn_bytes_little_endian_witness :
  exists bits,
    get_spn_bytes Example.db [x00; x10; x7d; x00; x20; x00; x00; x00] 190 = Ok bits
    /\ uint_of_bits bits = little_endian [x00; x20].
Proof.
  apply (get_spn_bytes_little_endian Example.db
           [x00; x10; x7d; x00; x20; x00; x00; x00] 190 Example.engine_speed 3 2
           eq_refl eq_refl eq_refl).
Defined.

(** X9: [get_spn_value] raises [KeyError] exactly for an SPN that the
    database lacks, whatever the payload and the [validate] flag. *)
Theorem get_spn_value_key_error (db : j1939db) (message_data : list byte)
    (spn : Z) (validate : bool) :
  get_spn_value db message_data spn validate = Raise KeyError
  <-> J1939SPNdb db !! spn = None.
Proof.
  destruct (J1939SPNdb db !! spn) as [e|] eqn:Hfound.
  - split; [| discriminate]. intros Hraise.
    destruct (get_spn_value_outcome db message_data spn e validate Hfound)
      as [[v Hv] | Hv]; rewrite Hv in Hraise; discriminate.
  - split; [reflexivity |]. intros _.
    unfold get_spn_value. now rewrite spn_field_missing.
Qed.



(** X11: a value returned for a bit-encoded SPN with [0 <= StartBit <=
    EndBit] is a whole number from 0 to [2 ^ width - 2], where [width] is
    [EndBit - StartBit + 1]: the all-ones code is never returned as a
    value. *)
Theorem get_spn_value_bitencoded_range (db : j1939db) (message_data : list byte)
    (spn : Z) (e : spn_entry) (validate : bool) (v : Q) :
  J1939SPNdb db !! spn = Some e ->
  is_spn_bitencoded (spn_Units e) = true ->
  0 <= spn_StartBit e <= spn_EndBit e ->
  get_spn_value db message_data spn validate = Ok (Some v) ->
  exists n : Z,
    v = inject_Z n
    /\ 0 <= n <= 2 ^ (spn_EndBit e - spn_StartBit e + 1) - 2.
Proof.
  intros Hfound Hunits Hrange.
  rewrite (get_spn_value_found db message_data spn e validate Hfound). cbv zeta.
  set (bits := byteswap (py_slice _ _ _)).
  destruct (all_true bits) eqn:Hall; [discriminate |].
  rewrite Hunits. intros [= <-].
  exists (uint_of_bits bits). split; [reflexivity |].
  destruct (uint_of_bits_bounds bits) as [Hbound Hones].
  assert (Hne : uint_of_bits bits <> 2 ^ Z.of_nat (length bits) - 1).
  { intros Heq. apply Hones in Heq. congruence. }
  assert (Hwidth : Z.of_nat (length bits) <= spn_EndBit e - spn_StartBit e + 1).
  { unfold bits. rewrite length_byteswap.
    pose proof (py_slice_length_le (BitString message_data) (spn_StartBit e)
                  (spn_EndBit e + 1)). lia. }
  pose proof (Z.pow_le_mono_r 2 _ _ ltac:(lia) Hwidth). lia.
Qed.

Lemma get_spn_value_bitencoded_range_witness :
  exists n : Z, inject_Z 5 = inject_Z n /\ 0 <= n <= 2 ^ (7 - 4 + 1) - 2.
Proof.
  apply (get_spn_value_bitencoded_range Example.db
           [x05; x10; x7d; x00; x20; x00; x00; x00] 899 Example.torque_mode true
           (inject_Z 5) eq_refl eq_refl).
  - cbn. lia.
  - reflexivity.
Defined.



(** ** Database lookups *)

(** X13: the acronym and the name of a PGN are never empty: a PGN that the
    database lacks has the acronym and the name ["Unknown"]; for a PGN of the
    database the acronym is the stored label, or ["Unknown"] when the label
    is empty, and the name is the stored name, or the acronym when the name
    is empty. *)
Theorem get_pgn_name_nonempty (db : j1939db) (pgn : Z) :
  get_pgn_acronym db pgn <> ""
  /\ get_pgn_name db pgn <> ""
  /\ match J1939PGNdb db !! pgn with
     | None => get_pgn_acronym db pgn = "Unknown" /\ get_pgn_name db pgn = "Unknown"
     | Some e =>
         (pgn_Label e <> "" -> get_pgn_acronym db pgn = pgn_Label e)
         /\ (pgn_Label e = "" -> get_pgn_acronym db pgn = "Unknown")
         /\ (pgn_Name e <> "" -> get_pgn_name db pgn = pgn_Name e)
         /\ (pgn_Name e = "" -> get_pgn_name db pgn = get_pgn_acronym db pgn)
     end.
Proof.
  unfold get_pgn_name, get_pgn_acronym, getitem.
  destruct (J1939PGNdb db !! pgn) as [e|].
  - destruct (String.eqb_spec (pgn_Label e) "") as [Hlabel | Hlabel];
      destruct (String.eqb_spec (pgn_Name e) "") as [Hname | Hname];
      repeat split; try discriminate; try assumption; try reflexivity;
      congruence.
  - repeat split; discriminate.
Qed.

Lemma get_pgn_name_nonempty_witness :
  get_pgn_name Example.db 61444 = "Electronic Engine Controller 1"
  /\ get_pgn_acronym (with_pgn_label Example.db 61444 "") 61444 = "Unknown".
Proof.
  split.
  - pose proof (get_pgn_name_nonempty Example.db 61444) as (_ & _ & Hfound).
    change (J1939PGNdb Example.db !! 61444) with (Some Example.eec1) in Hfound.
    apply (proj1 (proj2 (proj2 Hfound))). discriminate.
  - pose proof (get_pgn_name_nonempty (with_pgn_label Example.db 61444 "") 61444)
      as (_ & _ & Hfound).
    change (J1939PGNdb (with_pgn_label Example.db 61444 "") !! 61444)
      with (Some {| pgn_Label := ""; pgn_Name := ""; pgn_SPNs := [] |}) in Hfound.
    apply (proj1 (proj2 Hfound)). reflexivity.
Defined.

(** X14: the SPN list of a PGN is in ascending order; it holds the SPNs
    stored for the PGN, each as often as it is stored, and it is empty for a
    PGN that the database lacks. *)
Theorem get_spn_list_sorted (db : j1939db) (pgn : Z) :
  StronglySorted Z.le (get_spn_list db pgn)
  /\ match J1939PGNdb db !! pgn with
     | None => get_spn_list db pgn = []
     | Some e => get_spn_list db pgn ≡ₚ pgn_SPNs e
     end.
Proof.
  unfold get_spn_list, getitem.
  destruct (J1939PGNdb db !! pgn) as [e|].
  - split; [apply StronglySorted_merge_sort; apply _ | apply merge_sort_Permutation].
  - split; [constructor | reflexivity].
Qed.

(** ** Whole-message describer *)

Section DescriberFurther.
Context `{Rendering}.





(** X16: a numeric SPN of the database whose field is all ones is shown as
    ["N/A"] when [include_na] is on, and is left out of the dictionary when
    it is off. *)
Theorem describe_spn_not_available (db : j1939db) (message_data : list byte)
    (include_na : bool) (description : gmap string string) (spn : Z)
    (e : spn_entry) :
  J1939SPNdb db !! spn = Some e ->
  is_spn_numerical_values db spn = Ok true ->
  all_true (py_slice (BitString message_data) (spn_StartBit e) (spn_EndBit e + 1))
  = true ->
  describe_spn db message_data include_na description spn
  = Ok (if include_na then <[spn_Name e := "N/A"]> description else description).
Proof.
  intros Hfound Hnum Hall.
  assert (Hvalue : get_spn_value db message_data spn true = Ok None).
  { rewrite (get_spn_value_found db message_data spn e true Hfound). cbv zeta.
    now rewrite all_true_byteswap, Hall. }
  unfold describe_spn, describe_spn_try, get_spn_name.
  rewrite !(spn_field_found db spn e) by exact Hfound. cbn [rbind].
  rewrite Hnum. cbn [rbind]. rewrite Hvalue. cbn [rbind].
  destruct include_na; reflexivity.
Qed.

Lemma bitencoded_numerical (db : j1939db) (spn : Z) (e : spn_entry) :
  J1939SPNdb db !! spn = Some e ->
  is_spn_bitencoded (spn_Units e) = true ->
  is_spn_numerical_values db spn = Ok true.
Proof.
  intros Hfound Hunits. unfold is_spn_numerical_values.
  rewrite (spn_field_found db spn e) by exact Hfound. cbn [rbind].
  apply is_spn_bitencoded_iff in Hunits as [-> | ->]; reflexivity.
Qed.

(** X17: a bit-encoded SPN of the database whose field is not all ones is
    shown as its integer followed by the label that the decoding table has
    for that integer, stripped; when the table has no entry for the SPN or
    none for the integer, the label is ["Unknown"] and nothing is raised. *)
Theorem describe_spn_bitencoded (db : j1939db) (message_data : list byte)
    (include_na : bool) (description : gmap string string) (spn : Z)
    (e : spn_entry) :
  J1939SPNdb db !! spn = Some e ->
  is_spn_bitencoded (spn_Units e) = true ->
  let field := py_slice (BitString message_data) (spn_StartBit e) (spn_EndBit e + 1) in
  all_true field = false ->
  let raw := uint_of_bits (byteswap field) in
  let label :=
    match J1939BitDecodings db !! spn ≫= (fun table => table !! raw) with
    | Some text => strip text
    | None => "Unknown"
    end in
  describe_spn db message_data include_na description spn
  = Ok (<[spn_Name e := fmt_d (inject_Z raw) +:+ " (" +:+ label +:+ ")"]> description).
Proof.
  intros Hfound Hunits field Hfield raw label.
  assert (Hvalue : get_spn_value db message_data spn true = Ok (Some (inject_Z raw))).
  { rewrite (get_spn_value_found db message_data spn e true Hfound). cbv zeta.
    fold field. now rewrite all_true_byteswap, Hfield, Hunits. }
  assert (Hint : int_of_Q (inject_Z raw) = raw).
  { unfold int_of_Q, inject_Z. cbn [Qnum Qden]. apply Z.quot_1_r. }
  unfold describe_spn, describe_spn_try, get_spn_name.
  rewrite (bitencoded_numerical db spn e Hfound Hunits).
  rewrite !(spn_field_found db spn e) by exact Hfound. cbn [rbind].
  rewrite Hvalue, Hunits. cbn [rbind]. rewrite Hint.
  unfold label, getitem.
  destruct (J1939BitDecodings db !! spn) as [table|]; cbn [rbind mbind option_bind];
    [| reflexivity].
  destruct (table !! raw); reflexivity.
Qed.

End DescriberFurther.


Lemma describe_spn_not_available_witness :
  @describe_spn Example.plain Example.db [x05; xfe; x7d; xff; xff; x00; x00; x00]
    true ∅ 190
  = Ok (<["Engine Speed" := "N/A"]> ∅).
Proof.
  apply (@describe_spn_not_available Example.plain Example.db
           [x05; xfe; x7d; xff; xff; x00; x00; x00] true ∅ 190 Example.engine_speed);
    reflexivity.
Defined.

Lemma describe_spn_bitencoded_witness :
  @describe_spn Example.plain Example.db [x00; xfe; x7d; xff; xff; x00; x00; x00]
    false ∅ 899
  = Ok (<["Engine Torque Mode" := "<int> (Low idle governor)"]> ∅).
Proof.
  apply (@describe_spn_bitencoded Example.plain Example.db
           [x00; xfe; x7d; xff; xff; x00; x00; x00] false ∅ 899 Example.torque_mode);
    reflexivity.
Defined.

(** ** Identifier describer *)

(** X18: the description of an identifier has exactly the keys ["PGN"],
    ["DA"] and ["SA"]; the PGN entry is the acronym followed by the PGN in
    decimal between brackets, and for a PDU format byte of 240 or more the
    destination entry is ["All(255)"] whatever the address table holds. *)
Theorem describe_message_id_keys (db : j1939db) (message_id : Z) :
  let description := describe_message_id db message_id in
  let pgn := fst (fst (parse_j1939_id message_id)) in
  dom description = {[ "PGN"; "DA"; "SA" ]}
  /\ description !! "PGN" = Some (get_pgn_acronym db pgn +:+ "(" +:+ pretty pgn +:+ ")")
  /\ (240 <= (message_id / 65536) mod 256 ->
      description !! "DA" = Some "All(255)").
Proof.
  unfold describe_message_id. rewrite parse_j1939_id_bytes. cbv zeta.
  destruct (Z.leb_spec 240 ((message_id / 65536) mod 256)) as [Hge | Hlt]; cbn [fst].
  - change (get_formatted_address_and_name db 255) with ("(255)", "All").
    destruct (get_formatted_address_and_name db (message_id mod 256)) as [fa name].
    cbv beta iota.
    split; [rewrite !dom_insert_L, dom_empty_L; set_solver |].
    split; [now rewrite !lookup_insert_ne, lookup_insert_eq by discriminate |].
    intros _. now rewrite lookup_insert_ne, lookup_insert_eq by discriminate.
  - destruct (get_formatted_address_and_name db ((message_id / 256) mod 256))
      as [fda dname].
    destruct (get_formatted_address_and_name db (message_id mod 256)) as [fa name].
    cbv beta iota.
    split; [rewrite !dom_insert_L, dom_empty_L; set_solver |].
    split; [now rewrite !lookup_insert_ne, lookup_insert_eq by discriminate |].
    lia.
Qed.

Lemma describe_message_id_keys_witness :
  describe_message_id Example.db 0x0CF00400 !! "DA" = Some "All(255)".
Proof.
  apply (proj2 (proj2 (describe_message_id_keys Example.db 0x0CF00400))).
  vm_compute. discriminate.
Defined.

(** ** Transport reassembler *)

Section ReassemblerFurther.
Context {T : Type}.

(** X19: a frame that is neither a connection-management nor a
    data-transfer frame, and a connection-management frame whose control
    byte is not 32, leave the dictionaries as they are, emit nothing and
    return. *)
Theorem process_for_bams_ignored (st : bam_state) (message_bytes : list byte)
    (message_id sa : Z) (timestamp : T) :
  (is_transport_message message_id = false ->
   process_for_bams message_bytes message_id sa timestamp st = (st, [], Ok tt))
  /\ (forall control : Z,
        is_connection_management_message message_id = true ->
        byte_at message_bytes 0 = Ok control ->
        control <> 32 ->
        process_for_bams message_bytes message_id sa timestamp st = (st, [], Ok tt)).
Proof.
  split.
  - unfold is_transport_message. intros Hno.
    apply orb_false_iff in Hno as [Hdt Hcm].
    unfold process_for_bams. now rewrite Hcm, Hdt.
  - intros control Hcm Hcontrol Hne.
    unfold process_for_bams, is_bam_cts_message. rewrite Hcm, Hcontrol.
    unfold bind, lift, rbind, ret.
    destruct (Z.eqb_spec control 32); [contradiction | reflexivity].
Qed.

(** X20: a frame that is a connection-management frame with fewer than
    eight bytes and the control byte 32, or with no byte at all, makes the
    call raise [IndexError] with the dictionaries unchanged; so does an
    empty data-transfer frame for an address that has a session. *)
Theorem process_for_bams_short_frame (st : bam_state) (message_bytes : list byte)
    (message_id sa : Z) (timestamp : T) :
  (is_connection_management_message message_id = true ->
   message_bytes = []
   \/ (byte_at message_bytes 0 = Ok 32 /\ (length message_bytes < 8)%nat) ->
   process_for_bams message_bytes message_id sa timestamp st
   = (st, [], Raise IndexError))
  /\ (is_data_transfer_message message_id = true ->
      is_Some (new_data st !! sa) ->
      message_bytes = [] ->
      process_for_bams message_bytes message_id sa timestamp st
      = (st, [], Raise IndexError)).
Proof.
  split.
  - intros Hcm [-> | [Hcontrol Hshort]].
    + unfold process_for_bams. now rewrite Hcm.
    + unfold process_for_bams, is_bam_cts_message. rewrite Hcm, Hcontrol.
      destruct message_bytes as [|b0 [|b1 [|b2 [|b3 [|b4 [|b5 [|b6 [|b7 rest]]]]]]]];
        try reflexivity.
      cbn [length] in Hshort. lia.
  - intros Hdt Hsession ->.
    unfold process_for_bams.
    rewrite (data_transfer_not_connection_management _ Hdt), Hdt.
    unfold bind at 1. unfold get at 1.
    rewrite bool_decide_true by (now apply elem_of_dom).
    reflexivity.
Qed.

(** The copy loop emits printed lines only. *)
Lemma copy_loop_events (message_bytes : list byte) (sa : Z)
    (pairs : list (byte * Z)) (st : bam_state) (buf : list byte) :
  new_data st !! sa = Some buf ->
  exists buf' printed,
    for_each pairs (store_byte (T := T) message_bytes sa) st
    = (set_new_data sa buf' st, printed, Ok tt)
    /\ length buf' = length buf
    /\ completions printed = [].
Proof.
  revert st buf. induction pairs as [|[b i] pairs IH]; intros st buf Hbuf.
  - exists buf, []. split; [| split; reflexivity].
    cbn [for_each]. unfold ret. now rewrite set_new_data_id.
  - assert (Hstep : exists buf1 ev1,
               store_byte (T := T) message_bytes sa (b, i) st
               = (set_new_data sa buf1 st, ev1, Ok tt)
               /\ length buf1 = length buf /\ completions ev1 = []).
    { unfold store_byte, try_except, bind, get, lift, modify, emit, getitem.
      rewrite Hbuf.
      destruct (byte_at message_bytes 0) as [seqno|e].
      - destruct (list_setitem buf _ b) as [buf1|e] eqn:Hset.
        + exists buf1, []. split; [reflexivity |].
          split; [apply (list_setitem_length _ _ _ _ Hset) | reflexivity].
        + exists buf, [Printed e]. now rewrite set_new_data_id.
      - exists buf, [Printed e]. now rewrite set_new_data_id. }
    destruct Hstep as (buf1 & ev1 & Hstep & Hlen1 & Hev1).
    destruct (IH (set_new_data sa buf1 st) buf1)
      as (buf' & printed & Hloop & Hlen & Hev).
    { cbn [set_new_data new_data]. apply lookup_insert_eq. }
    exists buf', (ev1 ++ printed).
    rewrite (for_each_cons _ _ _ _ _ _ Hstep), Hloop, set_new_data_twice.
    split; [reflexivity |]. split; [congruence |].
    unfold completions in *. now rewrite omap_app, Hev1, Hev.
Qed.

(** The dictionaries and the completions of one call, in all its cases. *)
Lemma process_for_bams_cases (st : bam_state) (message_bytes : list byte)
    (message_id sa : Z) (timestamp : T) :
  let '(st', events, r) :=
    process_for_bams message_bytes message_id sa timestamp st in
  (completions events = []
   \/ (is_data_transfer_message message_id = true
       /\ exists pgn len packets buf',
            session_at st' sa pgn len packets buf'
            /\ byte_at message_bytes 0 = Ok packets
            /\ completions events = [(py_slice buf' 0 len, sa, pgn, timestamp)]))
  /\ (st' = st
      \/ (exists buf', st' = set_new_data sa buf' st)
      \/ (exists pgn len packets buf',
            st' = set_new_data sa buf'
                    (set_new_packets sa packets
                       (set_new_length sa len (set_new_pgn sa pgn st))))).
Proof.
  destruct (is_connection_management_message message_id) eqn:Hcm.
  - destruct message_bytes as [|b0 [|b1 [|b2 [|b3 [|b4 [|b5 [|b6 [|b7 rest]]]]]]]];
      [unfold process_for_bams; rewrite Hcm;
       unfold bind, lift, get, modify, ret, getitem, is_bam_cts_message, byte_at, rbind;
       cbn [lookup list_lookup];
       try (split; [now left | now left]);
       destruct (Z.of_N (Byte.to_N b0) =? 32); split; (now left) .. |].
    rewrite (process_bam_frame st message_id sa timestamp b0 b1 b2 b3 b4 b5 b6 b7
               rest Hcm).
    destruct (byte_value b0 =? 32); (split; [now left |]); [| now left].
    right. right. eauto.
  - unfold process_for_bams. rewrite Hcm.
    destruct (is_data_transfer_message message_id) eqn:Hdt;
      [| split; now left].
    unfold bind at 1. unfold get at 1.
    destruct (bool_decide (sa ∈ dom (new_data st))) eqn:Hin;
      [| split; now left].
    apply bool_decide_eq_true in Hin. apply elem_of_dom in Hin as [buf Hbuf].
    destruct (copy_loop_events message_bytes sa
                (zip (drop 1 message_bytes) [0; 1; 2; 3; 4; 5; 6]) st buf Hbuf)
      as (buf' & printed & Hloop & Hsame & Hprinted).
    unfold bind at 1. rewrite Hloop.
    unfold bind, lift, get, ret, emit, getitem.
    cbn [set_new_data new_data new_packets new_length new_pgn].
    rewrite lookup_insert_eq.
    assert (Hstate : forall st0 : bam_state,
               st0 = set_new_data sa buf' st ->
               st0 = st \/ (exists l, st0 = set_new_data sa l st)
               \/ (exists pgn len packets l,
                     st0 = set_new_data sa l
                             (set_new_packets sa packets
                                (set_new_length sa len (set_new_pgn sa pgn st)))))
      by (intros st0 ->; right; left; eauto).
    destruct (byte_at message_bytes 0) as [seqno|] eqn:Hseq;
      [| split; [left; now rewrite app_nil_r | now apply Hstate]].
    destruct (new_packets st !! sa) as [packets|] eqn:Hpackets;
      [| split; [left; now rewrite !app_nil_r | now apply Hstate]].
    destruct (Z.eqb_spec seqno packets) as [-> | Hne];
      [| split; [left; now rewrite !app_nil_r | now apply Hstate]].
    destruct (new_length st !! sa) as [len|] eqn:Hlen;
      [| split; [left; now rewrite !app_nil_r | now apply Hstate]].
    destruct (new_pgn st !! sa) as [pgn|] eqn:Hpgn;
      [| split; [left; now rewrite !app_nil_r | now apply Hstate]].
    split; [| now apply Hstate].
    right. split; [reflexivity |].
    exists pgn, len, packets, buf'. split.
    { unfold session_at. cbn [set_new_data new_data new_packets new_length new_pgn].
      now rewrite lookup_insert_eq. }
    split; [reflexivity |].
    unfold completions in *. rewrite !omap_app, Hprinted. reflexivity.
Qed.

(** X21: a call for the address [sa] never touches the entries of another
    address, whether it returns or raises. *)
Theorem process_for_bams_other_address (st : bam_state) (message_bytes : list byte)
    (message_id sa : Z) (timestamp : T) (other : Z) :
  other <> sa ->
  let st' := fst (fst (process_for_bams message_bytes message_id sa timestamp st)) in
  new_pgn st' !! other = new_pgn st !! other
  /\ new_length st' !! other = new_length st !! other
  /\ new_packets st' !! other = new_packets st !! other
  /\ new_data st' !! other = new_data st !! other.
Proof.
  intros Hne st'.
  pose proof (process_for_bams_cases st message_bytes message_id sa timestamp) as Hcases.
  unfold st'.
  destruct (process_for_bams message_bytes message_id sa timestamp st)
    as [[st1 events] r].
  cbn [fst].
  destruct Hcases as [_ [-> | [[buf' ->] | (pgn & len & packets & buf' & ->)]]];
    cbn [set_new_data set_new_packets set_new_length set_new_pgn
         new_data new_packets new_length new_pgn];
    rewrite ?lookup_insert_ne by congruence; repeat split; reflexivity.
Qed.

(** X22: a call makes at most one completion call; it makes one only for a
    data-transfer frame whose first byte equals the packet count of the
    session of [sa], and then with the bytes [buffer[0:length]] of that
    session, the address [sa], the PGN of the session and the timestamp of
    the frame. *)
Theorem process_for_bams_completions (st : bam_state) (message_bytes : list byte)
    (message_id sa : Z) (timestamp : T) :
  let '(st', events, r) :=
    process_for_bams message_bytes message_id sa timestamp st in
  completions events = []
  \/ (is_data_transfer_message message_id = true
      /\ exists pgn len packets buf',
           session_at st' sa pgn len packets buf'
           /\ byte_at message_bytes 0 = Ok packets
           /\ completions events = [(py_slice buf' 0 len, sa, pgn, timestamp)]).
Proof.
  pose proof (process_for_bams_cases st message_bytes message_id sa timestamp) as Hcases.
  destruct (process_for_bams message_bytes message_id sa timestamp st)
    as [[st1 events] r].
  exact (proj1 Hcases).
Qed.

(** X23: after any list of frames fed to a new processor, every address
    that has a buffer has its PGN, length and packet count as well, its
    buffer holds seven bytes for each announced packet, and its announced
    length is not negative. *)
Theorem process_frames_from_init (frames : list (list byte * Z * Z * T)) :
  bam_inv (fst (fst (process_frames frames bam_init))).
Proof. apply process_frames_inv, bam_inv_init. Qed.

End ReassemblerFurther.

Lemma process_for_bams_ignored_witness :
  process_for_bams (T := Z) Example.dt1 0x0CF00400 0 7 Example.after_bam
  = (Example.after_bam, [], Ok tt).
Proof.
  apply (proj1 (process_for_bams_ignored (T := Z) Example.after_bam Example.dt1
                  0x0CF00400 0 7)).
  reflexivity.
Defined.

Lemma process_for_bams_short_frame_witness :
  process_for_bams (T := Z) [x20; x0b; x00; x02] Example.cm_id 0 7 Example.after_dt1
  = (Example.after_dt1, [], Raise IndexError).
Proof.
  apply (proj1 (process_for_bams_short_frame (T := Z) Example.after_dt1
                  [x20; x0b; x00; x02] Example.cm_id 0 7)).
  - reflexivity.
  - right. split; [reflexivity | cbn; lia].
Defined.

Lemma process_for_bams_other_address_witness :
  new_data (fst (fst (process_for_bams (T := Z) Example.bam Example.cm_id 3 7
                        Example.after_dt1))) !! 0
  = new_data Example.after_dt1 !! 0.
Proof.
  apply (process_for_bams_other_address (T := Z) Example.after_dt1 Example.bam
           Example.cm_id 3 7 0).
  discriminate.
Defined.

Section ReassemblyRuns.
Context {T : Type}.

Lemma process_frames_cons (message_bytes : list byte) (message_id sa : Z)
    (timestamp : T) (rest : list (list byte * Z * Z * T))
    (st st1 : bam_state) (ev1 : list (event T)) :
  process_for_bams message_bytes message_id sa timestamp st = (st1, ev1, Ok tt) ->
  process_frames ((message_bytes, message_id, sa, timestamp) :: rest) st
  = let '(st2, ev2, r) := process_frames rest st1 in (st2, ev1 ++ ev2, r).
Proof. intros Hstep. cbn [process_frames]. unfold bind. now rewrite Hstep. Qed.

Lemma session_at_set_new_data (st : bam_state) (sa pgn len packets : Z)
    (buf buf' : list byte) :
  session_at st sa pgn len packets buf ->
  session_at (set_new_data sa buf' st) sa pgn len packets buf'.
Proof.
  intros (Hpgn & Hlen & Hpackets & _). repeat split; try assumption.
  cbn [set_new_data new_data]. apply lookup_insert_eq.
Qed.

(** A data-transfer frame of eight bytes or more with a sequence number
    from 1 to the packet count, said with the position of its bytes. *)
Lemma process_data_frame (st : bam_state) (message_bytes : list byte)
    (message_id sa : Z) (timestamp : T) (pgn len packets : Z) (buf : list byte)
    (j : nat) :
  is_data_transfer_message message_id = true ->
  session_at st sa pgn len packets buf ->
  Z.of_nat (length buf) = 7 * packets ->
  0 <= len ->
  byte_at message_bytes 0 = Ok (Z.of_nat j + 1) ->
  (8 <= length message_bytes)%nat ->
  Z.of_nat j + 1 <= packets ->
  let buf' := take (7 * j) buf ++ take 7 (drop 1 message_bytes)
              ++ drop (7 * j + 7) buf in
  process_for_bams message_bytes message_id sa timestamp st
  = (set_new_data sa buf' st,
     (if Z.of_nat j + 1 =? packets
      then [BamFound (take (Z.to_nat len) buf') sa pgn timestamp]
      else []),
     Ok tt)
  /\ length buf' = length buf.
Proof.
  intros Hdt Hsession Hsize Hlen Hseq Hlong Hrange buf'.
  rewrite (process_data_transfer_inside st message_bytes message_id sa timestamp
             pgn len packets (Z.of_nat j + 1) buf Hdt Hsession Hsize Hseq) by lia.
  replace (Z.to_nat (7 * (Z.of_nat j + 1 - 1))) with (7 * j)%nat by lia.
  rewrite length_drop, Nat.min_l by lia. fold buf'.
  rewrite py_slice_prefix by exact Hlen.
  split; [reflexivity |].
  unfold buf'. rewrite !length_app, !length_take, !length_drop. lia.
Qed.

(** Data frames numbered [j + 1], [j + 2], ... in this order fill the buffer
    in a row from byte [7 * j]; the last of them completes when its number
    is the packet count. *)
Lemma reassembly_from (message_id sa pgn len packets : Z) :
  is_data_transfer_message message_id = true ->
  0 <= len ->
  forall (frames : list (list byte * T)) (j : nat) (st : bam_state) (buf : list byte),
    session_at st sa pgn len packets buf ->
    Z.of_nat (length buf) = 7 * packets ->
    Z.of_nat (j + length frames) <= packets ->
    (forall (i : nat) (message_bytes : list byte) (timestamp : T),
        frames !! i = Some (message_bytes, timestamp) ->
        byte_at message_bytes 0 = Ok (Z.of_nat (j + i) + 1)
        /\ (8 <= length message_bytes)%nat) ->
    let payload := concat ((fun f => take 7 (drop 1 (fst f))) <$> frames) in
    let buf' := take (7 * j) buf ++ payload ++ drop (7 * (j + length frames)) buf in
    process_frames (data_frames message_id sa frames) st
    = (set_new_data sa buf' st,
       match last frames with
       | Some (_, timestamp) =>
           if Z.of_nat (j + length frames) =? packets
           then [BamFound (take (Z.to_nat len) buf') sa pgn timestamp]
           else []
       | None => []
       end,
       Ok tt).
Proof.
  intros Hdt Hlen.
  induction frames as [|[message_bytes timestamp] rest IH];
    intros j st buf Hsession Hsize Hcount Hframes.
  - cbn [fmap list_fmap concat length last data_frames process_frames app].
    unfold ret. rewrite Nat.add_0_r, take_drop.
    destruct Hsession as (_ & _ & _ & Hbuf). now rewrite set_new_data_id.
  - cbn [length] in Hcount.
    destruct (Hframes 0%nat message_bytes timestamp eq_refl) as [Hseq Hlong].
    rewrite Nat.add_0_r in Hseq.
    destruct (process_data_frame st message_bytes message_id sa timestamp pgn len
                packets buf j Hdt Hsession Hsize Hlen Hseq Hlong ltac:(lia))
      as [Hstep Hsame].
    set (data := take 7 (drop 1 message_bytes)) in *.
    set (buf1 := take (7 * j) buf ++ data ++ drop (7 * j + 7) buf) in *.
    assert (Hdata : length data = 7%nat).
    { unfold data. rewrite length_take, length_drop. lia. }
    unfold data_frames. rewrite fmap_cons. cbn [fst snd].
    rewrite (process_frames_cons _ _ _ _ _ _ _ _ Hstep).
    fold (data_frames message_id sa rest).
    rewrite (IH (S j) (set_new_data sa buf1 st) buf1);
      [| now apply (session_at_set_new_data st sa pgn len packets buf)
       | lia | lia
       | intros i mb ts Hi;
         replace (S j + i)%nat with (j + S i)%nat by lia;
         exact (Hframes (S i) mb ts Hi)].
    rewrite set_new_data_twice.
    cbn [fmap list_fmap concat fst length]. fold data.
    assert (Hbuf : take (7 * S j) buf1
                   ++ concat ((fun f => take 7 (drop 1 (fst f))) <$> rest)
                   ++ drop (7 * (S j + length rest)) buf1
                   = take (7 * j) buf
                     ++ (data ++ concat ((fun f => take 7 (drop 1 (fst f))) <$> rest))
                     ++ drop (7 * (j + S (length rest))) buf).
    { unfold buf1.
      assert (Hhead : length (take (7 * j) buf ++ data) = (7 * S j)%nat)
        by (rewrite length_app, length_take, Hdata; lia).
      rewrite (app_assoc (take (7 * j) buf) data).
      rewrite take_app_length' by (symmetry; exact Hhead).
      replace (7 * (S j + length rest))%nat
        with (length (take (7 * j) buf ++ data) + 7 * length rest)%nat by lia.
      rewrite drop_app_add, drop_drop.
      replace (7 * j + 7 + 7 * length rest)%nat
        with (7 * (j + S (length rest)))%nat by lia.
      now rewrite <- !app_assoc. }
    rewrite Hbuf.
    destruct rest as [|next rest].
    + cbn [last length]. rewrite app_nil_r.
      replace (Z.of_nat (S j + 0)) with (Z.of_nat j + 1) by lia.
      replace (Z.of_nat (j + 1)) with (Z.of_nat j + 1) by lia.
      cbn [fmap list_fmap concat length app] in Hbuf |- *.
      rewrite app_nil_r in Hbuf |- *. rewrite Nat.add_0_r, take_drop in Hbuf.
      rewrite <- Hbuf.
      destruct (Z.of_nat j + 1 =? packets); reflexivity.
    + change (last ((message_bytes, timestamp) :: next :: rest))
        with (last (next :: rest)).
      cbn [length] in *.
      destruct (Z.eqb_spec (Z.of_nat j + 1) packets) as [Hlast | _]; [lia |].
      replace (S j + S (length rest))%nat with (j + S (S (length rest)))%nat by lia.
      reflexivity.
Qed.

(** X24: for a session that announced [packets] packets, the data frames
    with the sequence numbers 1 to [packets], each of eight bytes or more
    and fed in this order, end in exactly one completion call, made by the
    last frame: its payload is the frames' data bytes in a row, cut to the
    announced length, and the buffer holds those data bytes. *)
Theorem reassembly_in_order (st : bam_state) (message_id sa pgn len packets : Z)
    (buf : list byte) (frames : list (list byte * T))
    (last_bytes : list byte) (last_timestamp : T) :
  is_data_transfer_message message_id = true ->
  session_at st sa pgn len packets buf ->
  Z.of_nat (length buf) = 7 * packets ->
  0 <= len ->
  Z.of_nat (length frames) = packets ->
  (forall (i : nat) (message_bytes : list byte) (timestamp : T),
      frames !! i = Some (message_bytes, timestamp) ->
      byte_at message_bytes 0 = Ok (Z.of_nat i + 1)
      /\ (8 <= length message_bytes)%nat) ->
  last frames = Some (last_bytes, last_timestamp) ->
  let payload := concat ((fun f => take 7 (drop 1 (fst f))) <$> frames) in
  process_frames (data_frames message_id sa frames) st
  = (set_new_data sa payload st,
     [BamFound (take (Z.to_nat len) payload) sa pgn last_timestamp],
     Ok tt).
Proof.
  intros Hdt Hsession Hsize Hlen Hcount Hframes Hlast payload.
  rewrite (reassembly_from message_id sa pgn len packets Hdt Hlen frames 0 st buf
             Hsession Hsize ltac:(cbn; lia) Hframes).
  rewrite Hlast. cbn [Nat.add Nat.mul take app].
  rewrite drop_ge by lia. rewrite app_nil_r. fold payload.
  destruct (Z.eqb_spec (Z.of_nat (length frames)) packets); [reflexivity | lia].
Qed.

End ReassemblyRuns.

Lemma reassembly_in_order_witness :
  process_frames (data_frames Example.dt_id 0 [(Example.dt1, 2); (Example.dt2, 3)])
    Example.after_bam
  = (set_new_data 0
       [x11; x12; x13; x14; x15; x16; x17; x21; x22; x23; x24; x25; x26; x27]
       Example.after_bam,
     [BamFound [x11; x12; x13; x14; x15; x16; x17; x21; x22; x23; x24] 0 65259 3],
     Ok tt).
Proof.
  apply (reassembly_in_order (T := Z) Example.after_bam Example.dt_id 0 65259 11 2
           (replicate 14 xff) [(Example.dt1, 2); (Example.dt2, 3)] Example.dt2 3).
  - reflexivity.
  - repeat split; reflexivity.
  - reflexivity.
  - lia.
  - reflexivity.
  - intros i message_bytes timestamp Hi.
    destruct i as [|[|i]]; cbn in Hi; [| | destruct i; discriminate];
      injection Hi as <- <-; (split; [reflexivity | cbn; lia]).
  - reflexivity.
Defined.

Section ReassemblyOrder.
Context {T : Type}.

Lemma chunk_lookup (l d : list byte) (j i : nat) :
  length d = 7%nat ->
  (7 * j + 7 <= length l)%nat ->
  (take (7 * j) l ++ d ++ drop (7 * j + 7) l) !! i
  = if decide (7 * j <= i < 7 * j + 7)%nat then d !! (i - 7 * j)%nat else l !! i.
Proof.
  intros Hd Hl.
  assert (Htake : length (take (7 * j) l) = (7 * j)%nat)
    by (rewrite length_take; lia).
  destruct (decide (7 * j <= i < 7 * j + 7)%nat) as [Hin | Hout].
  - rewrite lookup_app_r by lia. rewrite Htake.
    apply lookup_app_l. lia.
  - destruct (Nat.lt_ge_cases i (7 * j)) as [Hlt | Hge].
    + rewrite lookup_app_l by lia. apply lookup_take_lt. lia.
    + rewrite lookup_app_r by lia. rewrite Htake.
      rewrite lookup_app_r by lia. rewrite Hd, lookup_drop.
      f_equal. lia.
Qed.

Lemma chunk_length (l d : list byte) (j : nat) :
  length d = 7%nat ->
  (7 * j + 7 <= length l)%nat ->
  length (take (7 * j) l ++ d ++ drop (7 * j + 7) l) = length l.
Proof.
  intros Hd Hl. rewrite !length_app, length_take, length_drop. lia.
Qed.

(** Two data frames before the final one, one after the other. *)
Lemma process_two_frames (st : bam_state) (message_id sa pgn len packets : Z)
    (buf : list byte) (bytes1 bytes2 : list byte) (t1 t2 : T) (j1 j2 : nat) :
  is_data_transfer_message message_id = true ->
  session_at st sa pgn len packets buf ->
  Z.of_nat (length buf) = 7 * packets ->
  0 <= len ->
  byte_at bytes1 0 = Ok (Z.of_nat j1 + 1) ->
  byte_at bytes2 0 = Ok (Z.of_nat j2 + 1) ->
  (8 <= length bytes1)%nat -> (8 <= length bytes2)%nat ->
  Z.of_nat j1 + 1 < packets -> Z.of_nat j2 + 1 < packets ->
  let buf1 := take (7 * j1) buf ++ take 7 (drop 1 bytes1) ++ drop (7 * j1 + 7) buf in
  process_frames (data_frames message_id sa [(bytes1, t1); (bytes2, t2)]) st
  = (set_new_data sa
       (take (7 * j2) buf1 ++ take 7 (drop 1 bytes2) ++ drop (7 * j2 + 7) buf1) st,
     [], Ok tt).
Proof.
  intros Hdt Hsession Hsize Hlen Hseq1 Hseq2 Hlong1 Hlong2 Hj1 Hj2 buf1.
  destruct (process_data_frame st bytes1 message_id sa t1 pgn len packets buf j1
              Hdt Hsession Hsize Hlen Hseq1 Hlong1 ltac:(lia)) as [Hstep1 Hsame1].
  fold buf1 in Hstep1, Hsame1.
  destruct (Z.eqb_spec (Z.of_nat j1 + 1) packets) as [Hlast | _]; [lia |].
  destruct (process_data_frame (set_new_data sa buf1 st) bytes2 message_id sa t2
              pgn len packets buf1 j2 Hdt
              (session_at_set_new_data st sa pgn len packets buf buf1 Hsession)
              ltac:(lia) Hlen Hseq2 Hlong2 ltac:(lia)) as [Hstep2 _].
  destruct (Z.eqb_spec (Z.of_nat j2 + 1) packets) as [Hlast | _]; [lia |].
  unfold data_frames. cbn [fmap list_fmap fst snd].
  rewrite (process_frames_cons _ _ _ _ _ _ _ _ Hstep1).
  rewrite (process_frames_cons _ _ _ _ _ _ _ _ Hstep2).
  cbn [process_frames]. unfold ret. now rewrite set_new_data_twice.
Qed.

(** X25: two data frames of one session with different sequence numbers,
    neither of them the final one, can arrive in either order: the
    dictionaries end up the same, and no completion is made. *)
Theorem data_frames_commute (st : bam_state) (message_id sa pgn len packets : Z)
    (buf : list byte) (bytes1 bytes2 : list byte) (t1 t2 : T) (j1 j2 : nat) :
  is_data_transfer_message message_id = true ->
  session_at st sa pgn len packets buf ->
  Z.of_nat (length buf) = 7 * packets ->
  0 <= len ->
  byte_at bytes1 0 = Ok (Z.of_nat j1 + 1) ->
  byte_at bytes2 0 = Ok (Z.of_nat j2 + 1) ->
  (8 <= length bytes1)%nat -> (8 <= length bytes2)%nat ->
  Z.of_nat j1 + 1 < packets -> Z.of_nat j2 + 1 < packets ->
  j1 <> j2 ->
  process_frames (data_frames message_id sa [(bytes1, t1); (bytes2, t2)]) st
  = process_frames (data_frames message_id sa [(bytes2, t2); (bytes1, t1)]) st
  /\ snd (fst (process_frames
                 (data_frames message_id sa [(bytes1, t1); (bytes2, t2)]) st)) = [].
Proof.
  intros Hdt Hsession Hsize Hlen Hseq1 Hseq2 Hlong1 Hlong2 Hj1 Hj2 Hne.
  rewrite (process_two_frames st message_id sa pgn len packets buf bytes1 bytes2
             t1 t2 j1 j2) by assumption.
  rewrite (process_two_frames st message_id sa pgn len packets buf bytes2 bytes1
             t2 t1 j2 j1) by assumption.
  split; [| reflexivity].
  do 2 f_equal. f_equal.
  set (d1 := take 7 (drop 1 bytes1)). set (d2 := take 7 (drop 1 bytes2)).
  assert (Hd1 : length d1 = 7%nat)
    by (unfold d1; rewrite length_take, length_drop; lia).
  assert (Hd2 : length d2 = 7%nat)
    by (unfold d2; rewrite length_take, length_drop; lia).
  apply list_eq. intros i.
  rewrite !chunk_lookup by (rewrite ?chunk_length by (assumption || lia);
                            (assumption || lia)).
  repeat case_decide; try reflexivity; lia.
Qed.

(** X26: a data frame before the final one that arrives a second time
    changes nothing: the dictionaries after the repetition are those after
    the first arrival. *)
Theorem data_frame_replay (st : bam_state) (message_id sa pgn len packets : Z)
    (buf : list byte) (message_bytes : list byte) (t1 t2 : T) (j : nat) :
  is_data_transfer_message message_id = true ->
  session_at st sa pgn len packets buf ->
  Z.of_nat (length buf) = 7 * packets ->
  0 <= len ->
  byte_at message_bytes 0 = Ok (Z.of_nat j + 1) ->
  (8 <= length message_bytes)%nat ->
  Z.of_nat j + 1 < packets ->
  process_frames (data_frames message_id sa [(message_bytes, t1); (message_bytes, t2)]) st
  = process_frames (data_frames message_id sa [(message_bytes, t1)]) st.
Proof.
  intros Hdt Hsession Hsize Hlen Hseq Hlong Hj.
  rewrite (process_two_frames st message_id sa pgn len packets buf message_bytes
             message_bytes t1 t2 j j) by assumption.
  destruct (process_data_frame st message_bytes message_id sa t1 pgn len packets
              buf j Hdt Hsession Hsize Hlen Hseq Hlong ltac:(lia)) as [Hstep _].
  destruct (Z.eqb_spec (Z.of_nat j + 1) packets) as [Hlast | _]; [lia |].
  unfold data_frames. cbn [fmap list_fmap fst snd].
  rewrite (process_frames_cons _ _ _ _ _ _ _ _ Hstep).
  cbn [process_frames]. unfold ret. cbn [app].
  do 2 f_equal. f_equal.
  set (d := take 7 (drop 1 message_bytes)).
  assert (Hd : length d = 7%nat)
    by (unfold d; rewrite length_take, length_drop; lia).
  apply list_eq. intros i.
  rewrite !chunk_lookup by (rewrite ?chunk_length by (assumption || lia);
                            (assumption || lia)).
  repeat case_decide; try reflexivity; lia.
Qed.

End ReassemblyOrder.

Lemma get_spn_value_key_error_witness :
  get_spn_value Example.db [x00; x10; x7d; x00; x20; x00; x00; x00] 7 true
  = Raise KeyError.
Proof.
  apply (proj2 (get_spn_value_key_error Example.db
                  [x00; x10; x7d; x00; x20; x00; x00; x00] 7 true)).
  reflexivity.
Defined.

Lemma process_for_bams_completions_witness :
  let '(st', events, r) :=
    process_for_bams (T := Z) Example.dt2 Example.dt_id 0 3 Example.after_dt1 in
  completions events = []
  \/ (is_data_transfer_message Example.dt_id = true
      /\ exists pgn len packets buf',
           session_at st' 0 pgn len packets buf'
           /\ byte_at Example.dt2 0 = Ok packets
           /\ completions events = [(py_slice buf' 0 len, 0, pgn, 3)]).
Proof.
  exact (process_for_bams_completions (T := Z) Example.after_dt1 Example.dt2
           Example.dt_id 0 3).
Defined.

Lemma process_frames_from_init_witness :
  exists pgn len packets,
    session_at Example.after_dt1 0 pgn len packets
      ([x11; x12; x13; x14; x15; x16; x17] ++ replicate 7 xff)
    /\ Z.of_nat (length ([x11; x12; x13; x14; x15; x16; x17] ++ replicate 7 xff))
       = 7 * packets
    /\ 0 <= len.
Proof.
  apply (process_frames_from_init (T := Z)
           [(Example.bam, Example.cm_id, 0, 1); (Example.dt1, Example.dt_id, 0, 2)]
           0 ([x11; x12; x13; x14; x15; x16; x17] ++ replicate 7 xff)).
  reflexivity.
Defined.

Lemma data_frame_replay_witness :
  process_frames (data_frames Example.dt_id 0 [(Example.dt1, 2); (Example.dt1, 3)])
    Example.after_bam
  = process_frames (data_frames Example.dt_id 0 [(Example.dt1, 2)]) Example.after_bam.
Proof.
  apply (data_frame_replay (T := Z) Example.after_bam Example.dt_id 0 65259 11 2
           (replicate 14 xff) Example.dt1 2 3 0).
  - reflexivity.
  - repeat split; reflexivity.
  - reflexivity.
  - lia.
  - reflexivity.
  - cbn. lia.
  - lia.
Defined.

Lemma data_frames_commute_witness :
  let st :=
    fst (fst (process_for_bams (T := Z) [x20; x0f; x00; x03; xff; xeb; xfe; x00]
                Example.cm_id 0 1 bam_init)) in
  process_frames (data_frames Example.dt_id 0 [(Example.dt1, 2); (Example.dt2, 3)]) st
  = process_frames (data_frames Example.dt_id 0 [(Example.dt2, 3); (Example.dt1, 2)]) st.
Proof.
  intros st.
  apply (data_frames_commute (T := Z) st Example.dt_id 0 65259 15 3
           (replicate 21 xff) Example.dt1 Example.dt2 2 3 0 1).
  - reflexivity.
  - repeat split; reflexivity.
  - reflexivity.
  - lia.
  - reflexivity.
  - reflexivity.
  - cbn. lia.
  - cbn. lia.
  - lia.
  - lia.
  - discriminate.
Defined.

(** ** The two number models *)

Lemma py_le_int (a b : Z) : Py.le (Py.Int a) (Py.Int b) = (a <=? b).
Proof.
  unfold Py.le, Py.compare. cbn [Py.classify].
  change (Z.min 0 0) with 0. change (2 ^ (0 - 0)) with 1.
  rewrite !Z.mul_1_r. unfold Z.leb. destruct (a ?= b); reflexivity.
Qed.

Lemma py_lt_int (a b : Z) : Py.lt (Py.Int a) (Py.Int b) = (a <? b).
Proof.
  unfold Py.lt, Py.compare. cbn [Py.classify].
  change (Z.min 0 0) with 0. change (2 ^ (0 - 0)) with 1.
  rewrite !Z.mul_1_r. unfold Z.ltb. destruct (a ?= b); reflexivity.
Qed.

Lemma Qle_bool_inject (a b : Z) : Qle_bool (inject_Z a) (inject_Z b) = (a <=? b).
Proof. unfold Qle_bool, inject_Z. cbn [Qnum Qden]. now rewrite !Z.mul_1_r. Qed.

Lemma Qlt_bool_inject (a b : Z) : Qlt_bool (inject_Z a) (inject_Z b) = (a <? b).
Proof.
  unfold Qlt_bool, Qcompare, inject_Z. cbn [Qnum Qden].
  rewrite !Z.mul_1_r. unfold Z.ltb. destruct (a ?= b); reflexivity.
Qed.

Lemma scaled_inject (raw s o : Z) :
  (inject_Z raw * inject_Z s + inject_Z o)%Q = inject_Z (raw * s + o).
Proof.
  unfold Qplus, Qmult, inject_Z. cbn [Qnum Qden Pos.mul].
  now rewrite !Z.mul_1_r.
Qed.

(** X27: on an SPN whose offset, resolution and operational range are
    integers, [get_spn_value] over exact rationals and [get_spn_value] with
    Python's numbers give the same outcome for every payload and both
    values of [validate]: the same absence, the same integer value, or the
    same exception. *)
Theorem get_spn_value_integer_database (db : j1939db) (pdb : Py.j1939db)
    (message_data : list byte) (spn : Z) (validate : bool)
    (name acronym units : string) (start stop len o r lo hi : Z) :
  J1939SPNdb db !! spn
  = Some {| spn_Name := name; spn_Acronym := acronym; spn_Units := units;
            spn_StartBit := start; spn_EndBit := stop; spn_SPNLength := len;
            spn_Offset := inject_Z o; spn_Resolution := inject_Z r;
            spn_OperationalLow := inject_Z lo;
            spn_OperationalHigh := inject_Z hi |} ->
  Py.J1939SPNdb pdb !! spn
  = Some {| Py.spn_Name := name; Py.spn_Acronym := acronym; Py.spn_Units := units;
            Py.spn_StartBit := start; Py.spn_EndBit := stop;
            Py.spn_SPNLength := len;
            Py.spn_Offset := Py.Int o; Py.spn_Resolution := Py.Int r;
            Py.spn_OperationalLow := Py.Int lo;
            Py.spn_OperationalHigh := Py.Int hi |} ->
  match get_spn_value db message_data spn validate,
        Py.get_spn_value pdb message_data spn validate with
  | Ok None, Ok None => True
  | Ok (Some q), Ok (Some (Py.Int v)) => q = inject_Z v
  | Raise a, Raise b => a = b
  | _, _ => False
  end.
Proof.
  intros Hexact Hpython.
  rewrite (get_spn_value_found db message_data spn _ validate Hexact).
  rewrite (py_get_spn_value_found pdb message_data spn _ validate Hpython).
  cbv zeta.
  cbn [spn_Units spn_StartBit spn_EndBit spn_Offset spn_Resolution
       spn_OperationalLow spn_OperationalHigh
       Py.spn_Units Py.spn_StartBit Py.spn_EndBit Py.spn_Offset Py.spn_Resolution
       Py.spn_OperationalLow Py.spn_OperationalHigh].
  set (raw := uint_of_bits (byteswap (py_slice (BitString message_data) start (stop + 1)))).
  destruct (all_true _); [exact I |].
  destruct (is_spn_bitencoded units); [reflexivity |].
  change 0%Q with (inject_Z 0). rewrite Qle_bool_inject, py_le_int.
  change 1%Q with (inject_Z 1).
  assert (Hcase : forall s : Z,
             match
               (if validate && (Qlt_bool (inject_Z raw * inject_Z s + inject_Z o)
                                  (inject_Z lo)
                                || Qlt_bool (inject_Z hi)
                                     (inject_Z raw * inject_Z s + inject_Z o))
                then Raise ValueError
                else Ok (Some (inject_Z raw * inject_Z s + inject_Z o)%Q)),
               (let* scaled := Py.mul (Py.Int raw) (Py.Int s) in
                let* value := Py.add scaled (Py.Int o) in
                if validate && (Py.lt value (Py.Int lo) || Py.lt (Py.Int hi) value)
                then Raise ValueError
                else Ok (Some value))
             with
             | Ok None, Ok None => True
             | Ok (Some q), Ok (Some (Py.Int v)) => q = inject_Z v
             | Raise a, Raise b => a = b
             | _, _ => False
             end).
  { intros s. cbn [Py.mul Py.add rbind].
    rewrite scaled_inject, !Qlt_bool_inject, !py_lt_int.
    destruct (validate && _); reflexivity. }
  destruct (r <=? 0); apply Hcase.
Qed.

Lemma get_spn_value_integer_database_witness :
  match get_spn_value Example.db [x00; x96; x7d; x00; x20; x00; x00; x00] 512 true,
        Py.get_spn_value
          {| Py.J1939SPNdb :=
               {[ 512 := {| Py.spn_Name := "Driver's Demand Engine - Percent Torque";
                            Py.spn_Acronym := "DriversDemandEngPercentTorque";
                            Py.spn_Units := "%"; Py.spn_StartBit := 8;
                            Py.spn_EndBit := 15; Py.spn_SPNLength := 8;
                            Py.spn_Offset := Py.Int (-125);
                            Py.spn_Resolution := Py.Int 0;
                            Py.spn_OperationalLow := Py.Int (-125);
                            Py.spn_OperationalHigh := Py.Int 125 |} ]} |}
          [x00; x96; x7d; x00; x20; x00; x00; x00] 512 true with
  | Ok None, Ok None => True
  | Ok (Some q), Ok (Some (Py.Int v)) => q = inject_Z v
  | Raise a, Raise b => a = b
  | _, _ => False
  end.
Proof.
  apply (get_spn_value_integer_database Example.db _
           [x00; x96; x7d; x00; x20; x00; x00; x00] 512 true
           "Driver's Demand Engine - Percent Torque" "DriversDemandEngPercentTorque"
           "%" 8 15 8 (-125) 0 (-125) 125);
    reflexivity.
Defined.

(** X28: with Python's numbers as well, the signal is reported as not
    available exactly when every bit of the field is set, whatever the
    numbers of the entry are, not-a-number and the infinities included. *)
Theorem py_get_spn_value_all_ones (db : Py.j1939db) (message_data : list byte)
    (spn : Z) (e : Py.spn_entry) (validate : bool) :
  Py.J1939SPNdb db !! spn = Some e ->
  all_true (py_slice (BitString message_data) (Py.spn_StartBit e)
              (Py.spn_EndBit e + 1)) = true
  <-> Py.get_spn_value db message_data spn validate = Ok None.
Proof.
  intros Hfound.
  rewrite (py_get_spn_value_found db message_data spn e validate Hfound).
  cbv zeta. rewrite all_true_byteswap.
  destruct (all_true (py_slice _ _ _)); [tauto |].
  split; [discriminate |].
  destruct (is_spn_bitencoded _); [discriminate |].
  destruct (Py.mul _ _) as [scaled|]; cbn [rbind]; [| discriminate].
  destruct (Py.add scaled _) as [value|]; cbn [rbind]; [| discriminate].
  destruct (_ && _); discriminate.
Qed.

Lemma py_get_spn_value_all_ones_witness :
  Py.get_spn_value Py.example_db [xff] 1 true = Ok None.
Proof.
  apply (proj1 (py_get_spn_value_all_ones Py.example_db [xff] 1 Py.fraction true
                  eq_refl)).
  reflexivity.
Defined.

(** X29: with Python's numbers, a bit-encoded SPN of the database never
    makes [get_spn_value] raise, whatever its resolution, offset and range
    are: the call returns the absence for an all-ones field and the unsigned
    integer of the byte-swapped field otherwise. *)
Theorem py_get_spn_value_bitencoded (db : Py.j1939db) (message_data : list byte)
    (spn : Z) (e : Py.spn_entry) (validate : bool) :
  Py.J1939SPNdb db !! spn = Some e ->
  lower (Py.spn_Units e) = "bit" \/ lower (Py.spn_Units e) = "binary" ->
  let field :=
    py_slice (BitString message_data) (Py.spn_StartBit e) (Py.spn_EndBit e + 1) in
  Py.get_spn_value db message_data spn validate
  = if all_true field then Ok None
    else Ok (Some (Py.Int (uint_of_bits (byteswap field)))).
Proof.
  intros Hfound Hunits field.
  apply is_spn_bitencoded_iff in Hunits.
  rewrite (py_get_spn_value_found db message_data spn e validate Hfound).
  cbv zeta. fold field. rewrite all_true_byteswap, Hunits.
  reflexivity.
Qed.

Lemma py_get_spn_value_bitencoded_witness :
  Py.get_spn_value Py.example_db [x05] 899 true = Ok (Some (Py.Int 5)).
Proof.
  apply (py_get_spn_value_bitencoded Py.example_db [x05] 899 Py.state true eq_refl).
  left. reflexivity.
Defined.

(** X30: with Python's numbers, a stored resolution [r] with [r <= 0], an
    [int] or a [float], gives for every payload and both values of
    [validate] the same result as the stored integer 1. *)
Theorem py_get_spn_value_resolution (db : Py.j1939db) (message_data : list byte)
    (spn : Z) (e : Py.spn_entry) (r : Py.number) (validate : bool) :
  Py.le r (Py.Int 0) = true ->
  Py.get_spn_value (Py.with_spn db spn (Py.with_resolution e r))
    message_data spn validate
  = Py.get_spn_value (Py.with_spn db spn (Py.with_resolution e (Py.Int 1)))
      message_data spn validate.
Proof.
  intros Hr.
  rewrite (py_get_spn_value_found _ message_data spn (Py.with_resolution e r) validate)
    by apply lookup_insert_eq.
  rewrite (py_get_spn_value_found _ message_data spn
             (Py.with_resolution e (Py.Int 1)) validate)
    by apply lookup_insert_eq.
  cbn [Py.with_resolution Py.spn_StartBit Py.spn_EndBit Py.spn_Units Py.spn_Offset
       Py.spn_Resolution Py.spn_OperationalLow Py.spn_OperationalHigh].
  rewrite Hr. reflexivity.
Qed.

Lemma py_get_spn_value_resolution_witness :
  Py.get_spn_value
    (Py.with_spn Py.example_db 1
       (Py.with_resolution Py.fraction (Py.Float (S754_zero true))))
    [x03] 1 true
  = Py.get_spn_value
      (Py.with_spn Py.example_db 1 (Py.with_resolution Py.fraction (Py.Int 1)))
      [x03] 1 true.
Proof.
  apply (py_get_spn_value_resolution Py.example_db [x03] 1 Py.fraction
           (Py.Float (S754_zero true)) true).
  reflexivity.
Defined.
